(** * utymap mesh builder: a shallow embedding of
    [core/src/meshing/MeshBuilder.cpp] and the properties of its four
    builder operations.

    Numbers are modelled as the C++ code has them: [double] is IEEE
    binary64 (Rocq's primitive floats), [int] is a 32-bit two's-complement
    integer carried in [Z] with the wrap-around written out, [std::size_t]
    is a 64-bit unsigned integer carried in [Z].  A [std::vector] is a
    list and [push_back] appends at its end.  A raw pointer of the
    Triangle library is either null or addresses a buffer of cells. *)

From Stdlib Require Import Ascii String ZArith List Bool Lia PrimFloat.
Import ListNotations.
Open Scope Z_scope.

(** ** Machine numbers *)

Definition double := float.

(** [std::numeric_limits<double>::epsilon()] and [::lowest()]. *)
Definition epsilon : double := 0x1p-52%float.
Definition lowest : double := (-0x1.fffffffffffffp+1023)%float.

Definition int_max : Z := 2147483647.
Definition int_min : Z := -2147483648.

(** [static_cast<int>(z)]: reduction modulo 2^32 into the signed range. *)
Definition to_int (z : Z) : Z := (z + 2147483648) mod 4294967296 - 2147483648.

Definition int_add (a b : Z) : Z := to_int (a + b).
Definition int_mul (a b : Z) : Z := to_int (a * b).

(** Conversion to [std::size_t] and arithmetic in that type. *)
Definition to_size_t (z : Z) : Z := z mod 18446744073709551616.
Definition size_add (a b : Z) : Z := to_size_t (a + b).
Definition size_mul (a b : Z) : Z := to_size_t (a * b).

(** [v.size()] of a vector. *)
Definition size {A : Type} (v : list A) : Z := Z.of_nat (length v).

Definition push_back {A : Type} (v : list A) (a : A) : list A := v ++ [a].

(** A counted loop [for (i = start; ...; i++)] that runs [count] times and
    threads the state [s] through its body. *)
Fixpoint for_range {St : Type} (count : nat) (i : Z) (body : Z -> St -> St) (s : St) : St :=
  match count with
  | O => s
  | S n => for_range n (i + 1) body (body i s)
  end.

(** ** Pointers and buffers *)

(** A pointer is [nullptr] ([None]) or addresses a buffer. *)
Definition ptr (T : Type) : Type := option (list T).

(** [p[k]].  Reading through a null pointer or outside the buffer has no
    defined result in C++; the model yields the default [d] there. *)
Definition read {T : Type} (d : T) (p : ptr T) (k : Z) : T :=
  match p with
  | Some buf => if k <? 0 then d else nth (Z.to_nat k) buf d
  | None => d
  end.

(** [v.data()]: the storage of the vector; a vector without elements
    holds none and gives [nullptr]. *)
Definition data {T : Type} (v : list T) : ptr T :=
  match v with
  | [] => None
  | _ :: _ => Some v
  end.

(** [buf[k] = v] on an owned buffer; a store outside it is dropped. *)
Fixpoint write {T : Type} (buf : list T) (k : nat) (v : T) : list T :=
  match buf, k with
  | [], _ => []
  | _ :: tl, O => v :: tl
  | hd :: tl, S k' => hd :: write tl k' v
  end.

(** [malloc(n * sizeof(REAL))]: [n] cells, zero standing for their
    indeterminate content. *)
Definition malloc (n : Z) : list double := repeat 0%float (Z.to_nat n).

(** ** Data model *)

Module Vector2.
Record t := make { x : double; y : double }.
End Vector2.

Module Vector3.
Record t := make { x : double; y : double; z : double }.
End Vector3.

Record GeoCoordinate := { latitude : double; longitude : double }.

Record BoundingBox := { minPoint : GeoCoordinate; maxPoint : GeoCoordinate }.

(** Modelled from the spec: [Polygon] is declared outside the builder's
    source file; the spec gives it flattened coordinate sequences and a
    flat sequence of segment index pairs. *)
Record Polygon := {
  points : list double;
  holes : list double;
  segments : list Z
}.

(** Modelled from the spec: [Mesh] is declared outside the builder's source
    file; the spec gives it four growable buffers. *)
Record Mesh := {
  vertices : list double;
  triangles : list Z;
  colors : list Z;
  uvs : list double
}.

(** Modelled from the spec: [GeometryOptions] is declared outside the
    builder's source file. *)
Record GeometryOptions := {
  area : double;
  segmentSplit : Z;
  elevation : double;
  eleNoiseFreq : double;
  heightOffset : double;
  flipSide : bool;
  hasBackSide : bool
}.

(** The fields of Triangle's [triangulateio] that the builder touches. *)
Record triangulateio := {
  pointlist : ptr double;
  pointattributelist : ptr double;
  pointmarkerlist : ptr Z;
  numberofpoints : Z;
  numberofpointattributes : Z;
  trianglelist : ptr Z;
  triangleattributelist : ptr double;
  trianglearealist : ptr double;
  numberoftriangles : Z;
  numberofcorners : Z;
  segmentlist : ptr Z;
  segmentmarkerlist : ptr Z;
  numberofsegments : Z;
  holelist : ptr double;
  numberofholes : Z;
  numberofregions : Z
}.

(** The [triangulateio] whose pointers all are null and whose counts all
    are zero. *)
Definition declared : triangulateio :=
  {| pointlist := None; pointattributelist := None; pointmarkerlist := None;
     numberofpoints := 0; numberofpointattributes := 0;
     trianglelist := None; triangleattributelist := None;
     trianglearealist := None; numberoftriangles := 0; numberofcorners := 0;
     segmentlist := None; segmentmarkerlist := None; numberofsegments := 0;
     holelist := None; numberofholes := 0; numberofregions := 0 |}.

Definition set_trianglearealist (io : triangulateio) (p : ptr double) : triangulateio :=
  {| pointlist := pointlist io; pointattributelist := pointattributelist io;
     pointmarkerlist := pointmarkerlist io;
     numberofpoints := numberofpoints io;
     numberofpointattributes := numberofpointattributes io;
     trianglelist := trianglelist io;
     triangleattributelist := triangleattributelist io;
     trianglearealist := p;
     numberoftriangles := numberoftriangles io;
     numberofcorners := numberofcorners io;
     segmentlist := segmentlist io; segmentmarkerlist := segmentmarkerlist io;
     numberofsegments := numberofsegments io;
     holelist := holelist io; numberofholes := numberofholes io;
     numberofregions := numberofregions io |}.

(** ** Collaborators *)

(** The elevation provider interface: [getElevation(latitude, longitude)]. *)
Record ElevationProvider := { getElevation : double -> double -> double }.

(** What the builder meets outside its own file: the colour gradient, the
    texture region, the noise function and the Triangle library.
    [triangulate switches input] is the output structure Triangle fills
    for an output argument whose buffers are null.  [indeterminate] is the
    content a [triangulateio] declared on the stack has before the builder
    assigns any field: C++ leaves it open, so it is left open here. *)
Class Collaborators : Type := {
  indeterminate : triangulateio;
  ColorGradient : Type;
  evaluate : ColorGradient -> double -> Z;
  getColor : ColorGradient -> double -> double -> double -> Z;
  TextureRegion : Type;
  isEmpty : TextureRegion -> bool;
  region_map : TextureRegion -> Vector2.t -> Vector2.t;
  perlin2D : double -> double -> double -> double;
  triangulate : string -> triangulateio -> triangulateio
}.

(** Modelled from the spec: [AppearanceOptions] is declared outside the
    builder's source file. *)
Record AppearanceOptions `{Collaborators} : Type := {
  gradient : ColorGradient;
  colorNoiseFreq : double;
  textureRegion : TextureRegion;
  textureScale : double
}.

(** The members of [MeshBuilderImpl]. *)
Record MeshBuilderImpl := {
  bbox : BoundingBox;
  eleProvider_ : ElevationProvider
}.

(** ** Calls to Triangle *)

(** One call [::triangulate(switches, &input, &output, nullptr)]. *)
Record tri_call := { call_switches : string; call_input : triangulateio }.

(** Computations that call Triangle: the calls made so far are threaded
    through, each new one recorded at the end. *)
Definition Tri (A : Type) : Type := list tri_call -> A * list tri_call.

Definition ret {A : Type} (a : A) : Tri A := fun log => (a, log).

Definition bind {A B : Type} (c : Tri A) (k : A -> Tri B) : Tri B :=
  fun log => let (a, log') := c log in k a log'.

Notation "x <- c ;; k" := (bind c (fun x => k))
  (at level 61, c at next level, right associativity).

Definition run {A : Type} (c : Tri A) : A * list tri_call := c [].

(** ** The builder *)

Definition vertices_push_back (mesh : Mesh) (d : double) : Mesh :=
  {| vertices := push_back (vertices mesh) d; triangles := triangles mesh;
     colors := colors mesh; uvs := uvs mesh |}.

Definition triangles_push_back (mesh : Mesh) (t : Z) : Mesh :=
  {| vertices := vertices mesh; triangles := push_back (triangles mesh) t;
     colors := colors mesh; uvs := uvs mesh |}.

Definition colors_push_back (mesh : Mesh) (c : Z) : Mesh :=
  {| vertices := vertices mesh; triangles := triangles mesh;
     colors := push_back (colors mesh) c; uvs := uvs mesh |}.

Definition uvs_push_back (mesh : Mesh) (d : double) : Mesh :=
  {| vertices := vertices mesh; triangles := triangles mesh;
     colors := colors mesh; uvs := push_back (uvs mesh) d |}.

(** [p != nullptr]. *)
Definition not_null {T : Type} (p : ptr T) : bool :=
  match p with Some _ => true | None => false end.

(** [addVertex(mesh, p, ele, color, triIndex)], the [Vector2] overload. *)
Definition addVertex (mesh : Mesh) (p : Vector2.t) (ele : double) (color triIndex : Z) : Mesh :=
  let mesh := vertices_push_back mesh (Vector2.x p) in
  let mesh := vertices_push_back mesh (Vector2.y p) in
  let mesh := vertices_push_back mesh ele in
  let mesh := colors_push_back mesh color in
  let mesh := uvs_push_back mesh 0%float in
  let mesh := uvs_push_back mesh 0%float in
  triangles_push_back mesh triIndex.

(** [addVertex(mesh, vertex, color, triIndex)], the [Vector3] overload. *)
Definition addVertex_v3 (mesh : Mesh) (vertex : Vector3.t) (color triIndex : Z) : Mesh :=
  addVertex mesh (Vector2.make (Vector3.x vertex) (Vector3.z vertex))
            (Vector3.y vertex) color triIndex.

(** [reserve] changes the capacity of the buffers only, never their
    content.  It throws [std::length_error] when asked for more than
    [max_size()] elements, which a negative count does once converted to
    [std::size_t]; the builder then appends nothing.  That exit is not
    part of the model, which follows the calls that return: the counts
    Triangle hands back are never negative. *)
Definition ensureMeshCapacity (mesh : Mesh) (pointCount triCount : Z) : Mesh := mesh.

Section Builder.

Context `{Collaborators}.
Variable self : MeshBuilderImpl.

(** [::triangulate(switches, &input, &output, nullptr)], recorded. *)
Definition call_triangulate (switches : string) (input : triangulateio) : Tri triangulateio :=
  fun log =>
    (triangulate switches input,
     log ++ [{| call_switches := switches; call_input := input |}]).

(** Creates texture mapping function. *)
Definition createMapFunc (appearanceOptions : AppearanceOptions) : double -> double -> Vector2.t :=
  if isEmpty (textureRegion appearanceOptions) then
    fun x y => Vector2.make 0%float 0%float
  else
    let geoHeight := (latitude (maxPoint (bbox self)) - latitude (minPoint (bbox self)))%float in
    let geoWidth := (longitude (maxPoint (bbox self)) - longitude (minPoint (bbox self)))%float in
    let geoX := longitude (minPoint (bbox self)) in
    let geoY := latitude (minPoint (bbox self)) in
    let region := textureRegion appearanceOptions in
    let scale := textureScale appearanceOptions in
    fun x y =>
      let relX := ((x - geoX) / geoWidth * scale)%float in
      let relY := ((y - geoY) / geoHeight * scale)%float in
      region_map region (Vector2.make relX relY).

(** Body of the point loop of [fillMesh], at counter [i]. *)
Definition fillMesh_point (io : triangulateio) (geometryOptions : GeometryOptions)
    (appearanceOptions : AppearanceOptions) (map : double -> double -> Vector2.t)
    (i : Z) (mesh : Mesh) : Mesh :=
  let x := read 0%float (pointlist io) (int_add (int_mul i 2) 0) in
  let y := read 0%float (pointlist io) (int_add (int_mul i 2) 1) in
  let ele := (heightOffset geometryOptions +
              (if (lowest <? elevation geometryOptions)%float
               then elevation geometryOptions
               else getElevation (eleProvider_ self) y x))%float in
  let ele :=
    if not_null (pointmarkerlist io) && negb (read 0 (pointmarkerlist io) i =? 1)
    then (ele + perlin2D x y (eleNoiseFreq geometryOptions))%float
    else ele in
  let mesh := vertices_push_back mesh x in
  let mesh := vertices_push_back mesh y in
  let mesh := vertices_push_back mesh ele in
  let color := getColor (gradient appearanceOptions) x y (colorNoiseFreq appearanceOptions) in
  let mesh := colors_push_back mesh color in
  let uv := map x y in
  let mesh := uvs_push_back mesh (Vector2.x uv) in
  uvs_push_back mesh (Vector2.y uv).

(** Body of the triangle loop of [fillMesh], at counter [i] (a
    [std::size_t], so the subscript is computed in that type). *)
Definition fillMesh_triangle (io : triangulateio) (triStartIndex first second third : Z)
    (i : Z) (mesh : Mesh) : Mesh :=
  let corner (c : Z) :=
    read 0 (trianglelist io)
         (size_add (size_mul i (to_size_t (numberofcorners io))) (to_size_t c)) in
  let mesh := triangles_push_back mesh (int_add triStartIndex (corner first)) in
  let mesh := triangles_push_back mesh (int_add triStartIndex (corner second)) in
  triangles_push_back mesh (int_add triStartIndex (corner third)).

Definition fillMesh (io : triangulateio) (mesh : Mesh) (geometryOptions : GeometryOptions)
    (appearanceOptions : AppearanceOptions) : Mesh :=
  let triStartIndex := to_int (size (vertices mesh) / 3) in
  let map := createMapFunc appearanceOptions in
  let mesh := ensureMeshCapacity mesh (to_size_t (numberofpoints io))
                                 (to_size_t (numberoftriangles io)) in
  let mesh := for_range (Z.to_nat (numberofpoints io)) 0
                (fillMesh_point io geometryOptions appearanceOptions map) mesh in
  let first := if flipSide geometryOptions then 2 else 1 in
  let second := 0 in
  let third := if flipSide geometryOptions then 1 else 2 in
  for_range (Z.to_nat (to_size_t (numberoftriangles io))) 0
    (fillMesh_triangle io triStartIndex first second third) mesh.

(** The input structure [addPolygon] builds from the polygon; the fields
    it does not assign keep their indeterminate content. *)
Definition polygon_input (polygon : Polygon) : triangulateio :=
  {| numberofpoints := to_int (size (points polygon) / 2);
     numberofholes := to_int (size (holes polygon) / 2);
     numberofpointattributes := 0;
     numberofregions := 0;
     numberofsegments := to_int (size (segments polygon) / 2);
     pointlist := data (points polygon);
     holelist := data (holes polygon);
     segmentlist := data (segments polygon);
     segmentmarkerlist := None;
     pointmarkerlist := None;
     pointattributelist := pointattributelist indeterminate;
     trianglelist := trianglelist indeterminate;
     triangleattributelist := triangleattributelist indeterminate;
     trianglearealist := trianglearealist indeterminate;
     numberoftriangles := numberoftriangles indeterminate;
     numberofcorners := numberofcorners indeterminate |}.

Definition addPolygon (mesh : Mesh) (polygon : Polygon) (geometryOptions : GeometryOptions)
    (appearanceOptions : AppearanceOptions) : Tri Mesh :=
  let in_ := polygon_input polygon in
  mid <- call_triangulate "pzBQ" in_ ;;
  (* do not refine mesh if area is not set. *)
  if (abs (area geometryOptions) <? epsilon)%float then
    ret (fillMesh mid mesh geometryOptions appearanceOptions)
  else
    let areas :=
      for_range (Z.to_nat (numberoftriangles mid)) 0
        (fun i buf => write buf (Z.to_nat i) (area geometryOptions))
        (malloc (numberoftriangles mid)) in
    let mid := set_trianglearealist mid (Some areas) in
    let triOptions :=
      for_range (Z.to_nat (segmentSplit geometryOptions)) 0
        (fun i s => (s ++ "Y")%string) "prazPQ"%string in
    out <- call_triangulate triOptions mid ;;
    ret (fillMesh out mesh geometryOptions appearanceOptions).

(** [addPlane], the overload that is given the two elevations. *)
Definition addPlane_ele (mesh : Mesh) (p1 p2 : Vector2.t) (ele1 ele2 : double)
    (geometryOptions : GeometryOptions) (appearanceOptions : AppearanceOptions) : Mesh :=
  let color :=
    evaluate (gradient appearanceOptions)
      ((perlin2D (Vector2.x p1) (Vector2.y p1) (colorNoiseFreq appearanceOptions) + 1) / 2)%float in
  let index := to_int (size (vertices mesh) / 3) in
  let mesh := addVertex mesh p1 ele1 color index in
  let mesh := addVertex mesh p2 ele2 color (int_add index 2) in
  let mesh := addVertex mesh p2 (ele2 + heightOffset geometryOptions)%float color (int_add index 1) in
  let index := int_add index 3 in
  let mesh := addVertex mesh p1 (ele1 + heightOffset geometryOptions)%float color index in
  let mesh := addVertex mesh p1 ele1 color (int_add index 2) in
  addVertex mesh p2 (ele2 + heightOffset geometryOptions)%float color (int_add index 1).

(** [addPlane], the two-point overload. *)
Definition addPlane (mesh : Mesh) (p1 p2 : Vector2.t)
    (geometryOptions : GeometryOptions) (appearanceOptions : AppearanceOptions) : Mesh :=
  let ele1 := getElevation (eleProvider_ self) (Vector2.y p1) (Vector2.x p1) in
  let ele2 := getElevation (eleProvider_ self) (Vector2.y p2) (Vector2.x p2) in
  let ele1 := (ele1 + perlin2D (Vector2.x p1) (Vector2.y p1) (eleNoiseFreq geometryOptions))%float in
  let ele2 := (ele2 + perlin2D (Vector2.x p2) (Vector2.y p2) (eleNoiseFreq geometryOptions))%float in
  addPlane_ele mesh p1 p2 ele1 ele2 geometryOptions appearanceOptions.

Definition addTriangle (mesh : Mesh) (v0 v1 v2 : Vector3.t)
    (geometryOptions : GeometryOptions) (apperanceOptions : AppearanceOptions) : Mesh :=
  let color :=
    evaluate (gradient apperanceOptions)
      ((perlin2D (Vector3.x v0) (Vector3.z v0) (colorNoiseFreq apperanceOptions) + 1) / 2)%float in
  let startIndex := to_int (size (vertices mesh) / 3) in
  let mesh := addVertex_v3 mesh v0 color startIndex in
  let startIndex := int_add startIndex 1 in
  let mesh := addVertex_v3 mesh v1 color startIndex in
  let startIndex := int_add startIndex 1 in
  let mesh := addVertex_v3 mesh v2 color startIndex in
  if hasBackSide geometryOptions then
    let mesh := addVertex_v3 mesh v2 color startIndex in
    let startIndex := int_add startIndex 1 in
    let mesh := addVertex_v3 mesh v1 color startIndex in
    let startIndex := int_add startIndex 1 in
    addVertex_v3 mesh v0 color startIndex
  else mesh.

End Builder.

(** ** Vocabulary of the properties *)

(** The counter values [i, i+1, ...] a loop of [count] rounds visits. *)
Fixpoint zrange (count : nat) (i : Z) : list Z :=
  match count with
  | O => []
  | S n => i :: zrange n (i + 1)
  end.

Fixpoint replicate_string (n : nat) (s : string) : string :=
  match n with
  | O => EmptyString
  | S n' => (s ++ replicate_string n' s)%string
  end.

(** Number of vertices a mesh holds. *)
Definition vertex_count (mesh : Mesh) : Z := size (vertices mesh) / 3.

(** The [k]-th vertex of a mesh: its three consecutive cells. *)
Definition vertex_at (mesh : Mesh) (k : nat) : double * double * double :=
  (nth (3 * k) (vertices mesh) 0%float,
   nth (3 * k + 1) (vertices mesh) 0%float,
   nth (3 * k + 2) (vertices mesh) 0%float).

(** The cells a [Vector3] is stored in: x, then z, then y as elevation. *)
Definition stored (v : Vector3.t) : double * double * double :=
  (Vector3.x v, Vector3.z v, Vector3.y v).

(** The vertices the [t]-th triangle of a mesh refers to. *)
Definition referenced (mesh : Mesh) (t : nat) : list (double * double * double) :=
  List.map (fun index => vertex_at mesh (Z.to_nat index))
           [nth (3 * t) (triangles mesh) 0;
            nth (3 * t + 1) (triangles mesh) 0;
            nth (3 * t + 2) (triangles mesh) 0].

(** The elements of [l] stay where they are in [l'], which is no shorter. *)
Definition preserved {A : Type} (l l' : list A) : Prop :=
  (forall k a, nth_error l k = Some a -> nth_error l' k = Some a) /\
  (length l <= length l')%nat.

Definition only_appends (mesh mesh' : Mesh) : Prop :=
  preserved (vertices mesh) (vertices mesh') /\
  preserved (triangles mesh) (triangles mesh') /\
  preserved (colors mesh) (colors mesh') /\
  preserved (uvs mesh) (uvs mesh').

(** The Mesh invariant of the data model. *)
Definition mesh_invariant (mesh : Mesh) : Prop :=
  size (vertices mesh) = size (colors mesh) * 3 /\
  size (colors mesh) * 3 = size (uvs mesh) * 3 / 2 /\
  Forall (fun t => 0 <= t < size (vertices mesh) / 3) (triangles mesh).

(** The vertex count stays an [int] after [k] more vertices. *)
Definition room_for (mesh : Mesh) (k : Z) : Prop := vertex_count mesh + k <= int_max.

(** What the triangulation output says about point [i] and triangle [i]. *)
Definition point_x (io : triangulateio) (i : Z) : double :=
  read 0%float (pointlist io) (int_add (int_mul i 2) 0).

Definition point_y (io : triangulateio) (i : Z) : double :=
  read 0%float (pointlist io) (int_add (int_mul i 2) 1).

Definition marker (io : triangulateio) (i : Z) : option Z :=
  match pointmarkerlist io with
  | Some buf => Some (read 0 (Some buf) i)
  | None => None
  end.

Definition corner (io : triangulateio) (i c : Z) : Z :=
  read 0 (trianglelist io)
       (size_add (size_mul i (to_size_t (numberofcorners io))) (to_size_t c)).

(** Every corner of every triangle names a point of the output. *)
Definition corners_in_range (io : triangulateio) : Prop :=
  forall i c, 0 <= i < to_size_t (numberoftriangles io) -> 0 <= c <= 2 ->
    0 <= corner io i c < numberofpoints io.

Definition with_elevation (g : GeometryOptions) (e : double) : GeometryOptions :=
  {| area := area g; segmentSplit := segmentSplit g; elevation := e;
     eleNoiseFreq := eleNoiseFreq g; heightOffset := heightOffset g;
     flipSide := flipSide g; hasBackSide := hasBackSide g |}.

Section Vocabulary.

Context `{Collaborators}.
Variable self : MeshBuilderImpl.

(** The output of one recorded call. *)
Definition output_of (c : tri_call) : triangulateio :=
  triangulate (call_switches c) (call_input c).

(** Mesh and recorded calls of one [addPolygon]. *)
Definition polygon_mesh (mesh : Mesh) (polygon : Polygon) (g : GeometryOptions)
    (a : AppearanceOptions) : Mesh :=
  fst (run (addPolygon self mesh polygon g a)).

Definition polygon_calls (mesh : Mesh) (polygon : Polygon) (g : GeometryOptions)
    (a : AppearanceOptions) : list tri_call :=
  snd (run (addPolygon self mesh polygon g a)).

(** The triangulation [addPolygon] fills the mesh from: the output of its
    last call to Triangle. *)
Definition final_triangulation (mesh : Mesh) (polygon : Polygon) (g : GeometryOptions)
    (a : AppearanceOptions) : triangulateio :=
  output_of (last (polygon_calls mesh polygon g a)
                  {| call_switches := EmptyString; call_input := declared |}).

(** Elevation of point [i] before any noise, and its noise term. *)
Definition plain_elevation (io : triangulateio) (g : GeometryOptions) (i : Z) : double :=
  (heightOffset g +
   (if (lowest <? elevation g)%float then elevation g
    else getElevation (eleProvider_ self) (point_y io i) (point_x io i)))%float.

Definition elevation_noise (io : triangulateio) (g : GeometryOptions) (i : Z) : double :=
  perlin2D (point_x io i) (point_y io i) (eleNoiseFreq g).

(** Elevation of point [i] as the mesh receives it: the noise term is
    added when the output has a marker list and the marker is not 1. *)
Definition filled_elevation (io : triangulateio) (g : GeometryOptions) (i : Z) : double :=
  match marker io i with
  | Some m =>
      if m =? 1 then plain_elevation io g i
      else (plain_elevation io g i + elevation_noise io g i)%float
  | None => plain_elevation io g i
  end.

(** Elevation of point [i] in the words of the specification: without the
    noise term on a point marked as boundary, with it on any other. *)
Definition spec_elevation (io : triangulateio) (g : GeometryOptions) (i : Z) : double :=
  match marker io i with
  | Some 1 => plain_elevation io g i
  | _ => (plain_elevation io g i + elevation_noise io g i)%float
  end.

(** The colour [addPlane] and [addTriangle] derive at a point. *)
Definition color_at (a : AppearanceOptions) (px py : double) : Z :=
  evaluate (gradient a) ((perlin2D px py (colorNoiseFreq a) + 1) / 2)%float.

End Vocabulary.

(** ** Vocabulary in plain arithmetic *)

(** The counts of a triangulation output are what Triangle returns:
    [int]s that are not negative. *)
Definition counts_returned (io : triangulateio) : Prop :=
  0 <= numberofpoints io <= int_max /\
  0 <= numberoftriangles io <= int_max /\
  0 <= numberofcorners io <= int_max.

(** [io->trianglelist[i * io->numberofcorners + c]], the subscript taken
    as a number. *)
Definition corner_at (io : triangulateio) (i c : Z) : Z :=
  read 0 (trianglelist io) (i * numberofcorners io + c).

(** The first three corners of each of the [numberoftriangles] triangles
    name one of the [numberofpoints] points. *)
Definition corners_name_points (io : triangulateio) : Prop :=
  forall i c, 0 <= i < numberoftriangles io -> 0 <= c <= 2 ->
    0 <= corner_at io i c < numberofpoints io.

(** ** Vocabulary of the further properties *)

(** The vertex buffer holds whole vertices. *)
Definition whole_vertices (mesh : Mesh) : Prop := size (vertices mesh) mod 3 = 0.

(** What [mesh'] holds behind the content of [mesh], buffer by buffer. *)
Definition appended (mesh mesh' : Mesh) : Mesh :=
  {| vertices := skipn (length (vertices mesh)) (vertices mesh');
     triangles := skipn (length (triangles mesh)) (triangles mesh');
     colors := skipn (length (colors mesh)) (colors mesh');
     uvs := skipn (length (uvs mesh)) (uvs mesh') |}.

(** The vertices of [mesh'] that the [j]-th triangle appended to [mesh]
    refers to. *)
Definition appended_triangle (mesh mesh' : Mesh) (j : nat) : list (double * double * double) :=
  List.map (fun index => vertex_at mesh' (Z.to_nat index))
           (firstn 3 (skipn (3 * j) (triangles (appended mesh mesh')))).

(** The cells of a vertex at the point [p] and elevation [ele]. *)
Definition cells (p : Vector2.t) (ele : double) : double * double * double :=
  (Vector2.x p, Vector2.y p, ele).

(** Each group of three indices in reverse order. *)
Fixpoint reverse_triples (l : list Z) : list Z :=
  match l with
  | i0 :: i1 :: i2 :: rest => i2 :: i1 :: i0 :: reverse_triples rest
  | _ => l
  end.

Definition with_flipSide (g : GeometryOptions) (b : bool) : GeometryOptions :=
  {| area := area g; segmentSplit := segmentSplit g; elevation := elevation g;
     eleNoiseFreq := eleNoiseFreq g; heightOffset := heightOffset g;
     flipSide := b; hasBackSide := hasBackSide g |}.

(** ** A concrete builder

    Collaborators simple enough to evaluate: a gradient that is one
    colour, a texture region that is empty or shifts by an offset, constant
    noise [0.5], constant ground elevation [10], and a Triangle stand-in
    that returns its input points as one triangle, with point markers
    unless the [B] switch of ["pzBQ"] suppresses them. *)
Module Sample.

Definition single_triangle (switches : string) (input : triangulateio) : triangulateio :=
  {| pointlist := pointlist input;
     pointattributelist := None;
     pointmarkerlist :=
       if String.eqb switches "pzBQ" then None else Some [1; 1; 0];
     numberofpoints := numberofpoints input;
     numberofpointattributes := 0;
     trianglelist := Some [0; 1; 2];
     triangleattributelist := None;
     trianglearealist := None;
     numberoftriangles := 1;
     numberofcorners := 3;
     segmentlist := None; segmentmarkerlist := None; numberofsegments := 0;
     holelist := None; numberofholes := 0; numberofregions := 0 |}.

#[global] Instance collaborators : Collaborators :=
  {| indeterminate := declared;
     ColorGradient := Z;
     evaluate := fun g t => g;
     getColor := fun g x y freq => g;
     TextureRegion := option Vector2.t;
     isEmpty := fun r => match r with None => true | Some _ => false end;
     region_map := fun r p =>
       match r with
       | Some o => Vector2.make (Vector2.x p + Vector2.x o)%float
                                (Vector2.y p + Vector2.y o)%float
       | None => p
       end;
     perlin2D := fun x y freq => 0.5%float;
     triangulate := single_triangle |}.

Definition builder : MeshBuilderImpl :=
  {| bbox := {| minPoint := {| latitude := 0%float; longitude := 0%float |};
                maxPoint := {| latitude := 1%float; longitude := 1%float |} |};
     eleProvider_ := {| getElevation := fun lat lon => 10%float |} |}.

Definition empty_mesh : Mesh :=
  {| vertices := []; triangles := []; colors := []; uvs := [] |}.

(** A mesh that already holds one triangle. *)
Definition one_triangle_mesh : Mesh :=
  {| vertices := [0; 0; 5; 1; 0; 5; 0; 1; 5]%float;
     triangles := [0; 1; 2];
     colors := [7; 7; 7];
     uvs := [0; 0; 0; 0; 0; 0]%float |}.

(** A mesh of 2^31 vertices and no triangle: one vertex more than an
    [int] can count. *)
Definition huge_mesh : Mesh :=
  {| vertices := repeat 0%float (Z.to_nat 6442450944);
     triangles := [];
     colors := repeat 0 (Z.to_nat 2147483648);
     uvs := repeat 0%float (Z.to_nat 4294967296) |}.

Definition polygon : Polygon :=
  {| points := [0; 0; 1; 0; 0; 1]%float; holes := []; segments := [] |}.

Definition geometry (a : double) (back : bool) : GeometryOptions :=
  {| area := a; segmentSplit := 2; elevation := lowest;
     eleNoiseFreq := 1%float; heightOffset := 2%float;
     flipSide := false; hasBackSide := back |}.

Definition appearance (region : option Vector2.t) : AppearanceOptions :=
  {| gradient := 7; colorNoiseFreq := 1%float;
     textureRegion := region; textureScale := 1%float |}.

Definition textured : AppearanceOptions :=
  appearance (Some (Vector2.make 0.25%float 0.25%float)).

Definition v0 : Vector3.t := Vector3.make 1%float 2%float 3%float.
Definition v1 : Vector3.t := Vector3.make 4%float 5%float 6%float.
Definition v2 : Vector3.t := Vector3.make 7%float 8%float 9%float.

End Sample.

(** More concrete inputs: a second mesh of three vertices, a builder on
    the same tile with another elevation provider, geometry options with
    an explicit elevation, and two plane end points. *)
Module Scene.

Definition other_mesh : Mesh :=
  {| vertices := [1; 1; 1; 2; 2; 2; 3; 3; 3]%float;
     triangles := [];
     colors := [4; 4; 4];
     uvs := [0; 0; 0; 0; 0; 0]%float |}.

Definition other_builder : MeshBuilderImpl :=
  {| bbox := bbox Sample.builder;
     eleProvider_ := {| getElevation := fun lat lon => 99%float |} |}.

Definition explicit (back : bool) : GeometryOptions :=
  with_flipSide (with_elevation (Sample.geometry 0%float back) 3%float) true.

Definition p1 : Vector2.t := Vector2.make 1%float 2%float.
Definition p2 : Vector2.t := Vector2.make 3%float 4%float.

End Scene.

(** ** Arithmetic, loops and buffers *)

Lemma to_int_id (z : Z) : int_min <= z <= int_max -> to_int z = z.
Proof.
  unfold int_min, int_max, to_int. intros Hz.
  rewrite Z.mod_small by lia. lia.
Qed.

Lemma int_add_id (a b : Z) : int_min <= a + b <= int_max -> int_add a b = a + b.
Proof. apply to_int_id. Qed.

Lemma size_app {A : Type} (l l' : list A) : size (l ++ l') = size l + size l'.
Proof. unfold size. rewrite length_app. lia. Qed.

Lemma size_nonneg {A : Type} (l : list A) : 0 <= size l.
Proof. unfold size. lia. Qed.

Lemma zrange_length (n : nat) (i : Z) : length (zrange n i) = n.
Proof. revert i. induction n as [|n IH]; intros i; simpl; [|rewrite IH]; reflexivity. Qed.

Lemma zrange_bounds (n : nat) (i j : Z) :
  In j (zrange n i) -> i <= j < i + Z.of_nat n.
Proof.
  revert i. induction n as [|n IH]; intros i; simpl.
  - intros [].
  - intros [<- | Hin]; [lia|]. apply IH in Hin. lia.
Qed.

Lemma zrange_nth (n : nat) (i : Z) (k : nat) (d : Z) :
  (k < n)%nat -> nth k (zrange n i) d = i + Z.of_nat k.
Proof.
  revert i k. induction n as [|n IH]; intros i k Hk; [lia|].
  destruct k as [|k]; simpl.
  - lia.
  - rewrite IH by lia. lia.
Qed.

(** A loop whose body appends [f i] to one buffer of the state appends
    the blocks of all its rounds, in order. *)
Lemma for_range_appends {St A : Type} (proj : St -> list A) (f : Z -> list A)
    (body : Z -> St -> St) :
  (forall i s, proj (body i s) = proj s ++ f i) ->
  forall n i s, proj (for_range n i body s) = proj s ++ flat_map f (zrange n i).
Proof.
  intros Hbody. induction n as [|n IH]; intros i s; simpl.
  - now rewrite app_nil_r.
  - rewrite IH, Hbody, <- app_assoc. reflexivity.
Qed.

(** A loop whose body leaves a component of the state alone leaves it
    alone. *)
Lemma for_range_keeps {St B : Type} (proj : St -> B) (body : Z -> St -> St) :
  (forall i s, proj (body i s) = proj s) ->
  forall n i s, proj (for_range n i body s) = proj s.
Proof.
  intros Hbody. induction n as [|n IH]; intros i s; simpl.
  - reflexivity.
  - now rewrite IH, Hbody.
Qed.

Lemma flat_map_length_const {A B : Type} (f : A -> list B) (c : nat) (l : list A) :
  (forall a, length (f a) = c) -> length (flat_map f l) = (c * length l)%nat.
Proof.
  intros Hf. induction l as [|a l IH]; simpl.
  - lia.
  - rewrite length_app, Hf, IH. lia.
Qed.

(** Cell [3k + r] of a sequence of triples is cell [r] of triple [k]. *)
Lemma nth_flat_map_triple {A B : Type} (f g h : A -> B) (l : list A) (k : nat) (d : B) (da : A) :
  (k < length l)%nat ->
  nth (3 * k) (flat_map (fun a => [f a; g a; h a]) l) d = f (nth k l da) /\
  nth (3 * k + 1) (flat_map (fun a => [f a; g a; h a]) l) d = g (nth k l da) /\
  nth (3 * k + 2) (flat_map (fun a => [f a; g a; h a]) l) d = h (nth k l da).
Proof.
  revert k. induction l as [|a l IH]; intros k Hk; simpl in Hk; [lia|].
  destruct k as [|k].
  - simpl. auto.
  - replace (3 * S k)%nat with (S (S (S (3 * k)))) by lia.
    simpl. apply IH. lia.
Qed.

Lemma flat_map_const_nil {A B : Type} (l : list A) (b : B) (c : nat) :
  flat_map (fun _ => repeat b c) l = repeat b (c * length l).
Proof.
  induction l as [|a l IH]; simpl.
  - now rewrite Nat.mul_0_r.
  - rewrite IH, <- repeat_app. f_equal. lia.
Qed.

Lemma prefix_preserved {A : Type} (l s : list A) : preserved l (l ++ s).
Proof.
  split.
  - intros k a Hk. rewrite nth_error_app1; [assumption|].
    apply nth_error_Some. congruence.
  - rewrite length_app. lia.
Qed.

Lemma write_repeat (v w : double) (n k : nat) :
  write (repeat v k ++ repeat w n) k v = repeat v (k + Nat.min 1 n) ++ repeat w (n - 1).
Proof.
  induction k as [|k IH]; simpl.
  - destruct n as [|n]; simpl; [reflexivity|]. now rewrite Nat.sub_0_r.
  - now rewrite IH.
Qed.

(** Filling a fresh buffer cell by cell leaves every cell at the value. *)
Lemma fill_areas (v : double) (n : nat) :
  for_range n 0 (fun i buf => write buf (Z.to_nat i) v) (repeat 0%float n) = repeat v n.
Proof.
  assert (Hgen : forall m k,
    for_range m (Z.of_nat k) (fun i buf => write buf (Z.to_nat i) v)
              (repeat v k ++ repeat 0%float m) = repeat v (k + m)).
  { induction m as [|m IH]; intros k.
    - simpl. now rewrite app_nil_r, Nat.add_0_r.
    - cbn [for_range]. rewrite Nat2Z.id, write_repeat.
      replace (Z.of_nat k + 1) with (Z.of_nat (S k)) by lia.
      replace (k + Nat.min 1 (S m))%nat with (S k) by lia.
      replace (S m - 1)%nat with m by lia.
      rewrite IH. f_equal. lia. }
  apply (Hgen n O).
Qed.

Lemma append_assoc (a b c : string) : ((a ++ b) ++ c = a ++ (b ++ c))%string.
Proof. induction a as [|ch a IH]; simpl; [reflexivity|now rewrite IH]. Qed.

Lemma append_empty_r (a : string) : (a ++ EmptyString = a)%string.
Proof. induction a as [|ch a IH]; simpl; [reflexivity|now rewrite IH]. Qed.

Lemma append_switches (n : nat) (i : Z) (s y : string) :
  for_range n i (fun _ t => (t ++ y)%string) s = (s ++ replicate_string n y)%string.
Proof.
  revert i s. induction n as [|n IH]; intros i s; simpl.
  - now rewrite append_empty_r.
  - now rewrite IH, append_assoc.
Qed.

(** ** What one operation appends *)

Lemma addVertex_eq (mesh : Mesh) (p : Vector2.t) (ele : double) (color triIndex : Z) :
  addVertex mesh p ele color triIndex =
  {| vertices := vertices mesh ++ [Vector2.x p; Vector2.y p; ele];
     triangles := triangles mesh ++ [triIndex];
     colors := colors mesh ++ [color];
     uvs := uvs mesh ++ [0%float; 0%float] |}.
Proof.
  unfold addVertex, vertices_push_back, colors_push_back, uvs_push_back,
    triangles_push_back, push_back. cbn.
  now rewrite <- !app_assoc.
Qed.

Lemma addVertex_v3_eq (mesh : Mesh) (v : Vector3.t) (color triIndex : Z) :
  addVertex_v3 mesh v color triIndex =
  {| vertices := vertices mesh ++ [Vector3.x v; Vector3.z v; Vector3.y v];
     triangles := triangles mesh ++ [triIndex];
     colors := colors mesh ++ [color];
     uvs := uvs mesh ++ [0%float; 0%float] |}.
Proof. unfold addVertex_v3. now rewrite addVertex_eq. Qed.

Ltac unfold_pushes :=
  unfold vertices_push_back, colors_push_back, uvs_push_back,
    triangles_push_back, push_back; cbn [vertices triangles colors uvs].

Section Filling.

Context `{Collaborators}.
Variable self : MeshBuilderImpl.
Variables (io : triangulateio) (g : GeometryOptions) (a : AppearanceOptions).

Lemma fillMesh_point_elevation (i : Z) :
  (if not_null (pointmarkerlist io) && negb (read 0 (pointmarkerlist io) i =? 1)
   then (plain_elevation self io g i + elevation_noise io g i)%float
   else plain_elevation self io g i) = filled_elevation self io g i.
Proof.
  unfold filled_elevation, marker.
  destruct (pointmarkerlist io) as [buf|]; cbn [not_null andb]; [|reflexivity].
  now destruct (read 0 (Some buf) i =? 1).
Qed.

Lemma fillMesh_point_vertices (i : Z) (mesh : Mesh) :
  vertices (fillMesh_point self io g a (createMapFunc self a) i mesh) =
  vertices mesh ++ [point_x io i; point_y io i; filled_elevation self io g i].
Proof.
  unfold fillMesh_point. unfold_pushes.
  rewrite <- !app_assoc. cbn [app].
  now rewrite <- fillMesh_point_elevation.
Qed.

Lemma fillMesh_point_colors (i : Z) (mesh : Mesh) :
  colors (fillMesh_point self io g a (createMapFunc self a) i mesh) =
  colors mesh ++ [getColor (gradient a) (point_x io i) (point_y io i) (colorNoiseFreq a)].
Proof. unfold fillMesh_point. now unfold_pushes. Qed.

Lemma fillMesh_point_uvs (i : Z) (mesh : Mesh) :
  uvs (fillMesh_point self io g a (createMapFunc self a) i mesh) =
  uvs mesh ++ [Vector2.x (createMapFunc self a (point_x io i) (point_y io i));
               Vector2.y (createMapFunc self a (point_x io i) (point_y io i))].
Proof.
  unfold fillMesh_point. unfold_pushes.
  now rewrite <- !app_assoc.
Qed.

Lemma fillMesh_point_triangles (i : Z) (mesh : Mesh) :
  triangles (fillMesh_point self io g a (createMapFunc self a) i mesh) = triangles mesh.
Proof. unfold fillMesh_point. now unfold_pushes. Qed.

Lemma fillMesh_triangle_triangles (start first second third i : Z) (mesh : Mesh) :
  triangles (fillMesh_triangle io start first second third i mesh) =
  triangles mesh ++ [int_add start (corner io i first);
                     int_add start (corner io i second);
                     int_add start (corner io i third)].
Proof.
  unfold fillMesh_triangle, corner. unfold_pushes.
  now rewrite <- !app_assoc.
Qed.

(** The four buffers after [fillMesh], in closed form. *)
Lemma fillMesh_vertices (mesh : Mesh) :
  vertices (fillMesh self io mesh g a) =
  vertices mesh ++
  flat_map (fun i => [point_x io i; point_y io i; filled_elevation self io g i])
           (zrange (Z.to_nat (numberofpoints io)) 0).
Proof.
  unfold fillMesh, ensureMeshCapacity.
  rewrite (for_range_keeps vertices) by reflexivity.
  apply (for_range_appends vertices). intros i s. apply fillMesh_point_vertices.
Qed.

Lemma fillMesh_colors (mesh : Mesh) :
  colors (fillMesh self io mesh g a) =
  colors mesh ++
  flat_map (fun i => [getColor (gradient a) (point_x io i) (point_y io i) (colorNoiseFreq a)])
           (zrange (Z.to_nat (numberofpoints io)) 0).
Proof.
  unfold fillMesh, ensureMeshCapacity.
  rewrite (for_range_keeps colors) by reflexivity.
  apply (for_range_appends colors). intros i s. apply fillMesh_point_colors.
Qed.

Lemma fillMesh_uvs (mesh : Mesh) :
  uvs (fillMesh self io mesh g a) =
  uvs mesh ++
  flat_map (fun i => [Vector2.x (createMapFunc self a (point_x io i) (point_y io i));
                      Vector2.y (createMapFunc self a (point_x io i) (point_y io i))])
           (zrange (Z.to_nat (numberofpoints io)) 0).
Proof.
  unfold fillMesh, ensureMeshCapacity.
  rewrite (for_range_keeps uvs) by reflexivity.
  apply (for_range_appends uvs). intros i s. apply fillMesh_point_uvs.
Qed.

Lemma fillMesh_triangles (mesh : Mesh) :
  triangles (fillMesh self io mesh g a) =
  triangles mesh ++
  flat_map (fun i =>
              [int_add (to_int (vertex_count mesh)) (corner io i (if flipSide g then 2 else 1));
               int_add (to_int (vertex_count mesh)) (corner io i 0);
               int_add (to_int (vertex_count mesh)) (corner io i (if flipSide g then 1 else 2))])
           (zrange (Z.to_nat (to_size_t (numberoftriangles io))) 0).
Proof.
  unfold fillMesh, ensureMeshCapacity, vertex_count.
  rewrite (for_range_appends triangles _ _
             (fun i s => fillMesh_triangle_triangles _ _ _ _ i s)).
  f_equal. apply (for_range_keeps triangles). intros i s. apply fillMesh_point_triangles.
Qed.

End Filling.

(** ** addPolygon *)

Section PolygonProperties.

Context `{Collaborators}.
Variable self : MeshBuilderImpl.
Variables (mesh : Mesh) (polygon : Polygon) (g : GeometryOptions) (a : AppearanceOptions).

(** The mesh [addPolygon] returns is [fillMesh] of the output of its last
    Triangle call. *)
Lemma addPolygon_fills :
  polygon_mesh self mesh polygon g a =
  fillMesh self (final_triangulation self mesh polygon g a) mesh g a.
Proof.
  unfold final_triangulation, polygon_calls, polygon_mesh, run, addPolygon,
    bind, call_triangulate, ret.
  now destruct (abs (area g) <? epsilon)%float.
Qed.

Lemma read_repeat (v : double) (n : nat) (i : Z) :
  0 <= i < Z.of_nat n -> read 0%float (Some (repeat v n)) i = v.
Proof.
  intros Hi. unfold read.
  destruct (Z.ltb_spec i 0) as [Hneg|_]; [lia|].
  assert (Hlt : (Z.to_nat i < n)%nat) by lia.
  revert Hlt. generalize (Z.to_nat i) as k. clear Hi.
  induction n as [|n IH]; intros k Hk; [lia|].
  destruct k as [|k]; simpl; [reflexivity|]. apply IH. lia.
Qed.

Lemma replicate_string_chars (n : nat) (c : Ascii.ascii) :
  replicate_string n (String c EmptyString) = string_of_list_ascii (repeat c n).
Proof. induction n as [|n IH]; simpl; [reflexivity|now rewrite IH]. Qed.

(** C7: [addPolygon] first calls Triangle with the switches ["pzBQ"] on the
    input built from the polygon.  When [abs(area) < epsilon] that is its
    only call and the mesh is filled from its output.  Otherwise it calls
    Triangle a second time, with the switches ["prazPQ"] followed by
    [segmentSplit] times the letter Y, on the first output in which the
    area-constraint buffer has become one cell per triangle, each cell
    holding [area], and every other field is as Triangle returned it; the
    mesh is filled from the output of that second call. *)
Theorem addPolygon_refines_unless_area_unset :
  let in_ :=
    {| pointlist := data (points polygon);
       pointattributelist := pointattributelist indeterminate;
       pointmarkerlist := None;
       numberofpoints := to_int (size (points polygon) / 2);
       numberofpointattributes := 0;
       trianglelist := trianglelist indeterminate;
       triangleattributelist := triangleattributelist indeterminate;
       trianglearealist := trianglearealist indeterminate;
       numberoftriangles := numberoftriangles indeterminate;
       numberofcorners := numberofcorners indeterminate;
       segmentlist := data (segments polygon);
       segmentmarkerlist := None;
       numberofsegments := to_int (size (segments polygon) / 2);
       holelist := data (holes polygon);
       numberofholes := to_int (size (holes polygon) / 2);
       numberofregions := 0 |} in
  let mid := triangulate "pzBQ" in_ in
  let constrained :=
    {| pointlist := pointlist mid;
       pointattributelist := pointattributelist mid;
       pointmarkerlist := pointmarkerlist mid;
       numberofpoints := numberofpoints mid;
       numberofpointattributes := numberofpointattributes mid;
       trianglelist := trianglelist mid;
       triangleattributelist := triangleattributelist mid;
       trianglearealist :=
         Some (repeat (area g) (Z.to_nat (numberoftriangles mid)));
       numberoftriangles := numberoftriangles mid;
       numberofcorners := numberofcorners mid;
       segmentlist := segmentlist mid;
       segmentmarkerlist := segmentmarkerlist mid;
       numberofsegments := numberofsegments mid;
       holelist := holelist mid;
       numberofholes := numberofholes mid;
       numberofregions := numberofregions mid |} in
  let triOptions :=
    ("prazPQ" ++
     string_of_list_ascii (repeat "Y"%char (Z.to_nat (segmentSplit g))))%string in
  if (abs (area g) <? epsilon)%float then
    polygon_calls self mesh polygon g a =
      [{| call_switches := "pzBQ"; call_input := in_ |}] /\
    polygon_mesh self mesh polygon g a = fillMesh self mid mesh g a
  else
    polygon_calls self mesh polygon g a =
      [{| call_switches := "pzBQ"; call_input := in_ |};
       {| call_switches := triOptions; call_input := constrained |}] /\
    (forall i, 0 <= i < numberoftriangles mid ->
       read 0%float (trianglearealist constrained) i = area g) /\
    polygon_mesh self mesh polygon g a =
      fillMesh self (triangulate triOptions constrained) mesh g a.
Proof.
  intros in_ mid constrained triOptions.
  unfold polygon_calls, polygon_mesh, run, addPolygon, bind, call_triangulate, ret.
  change (polygon_input polygon) with in_. fold mid.
  destruct (abs (area g) <? epsilon)%float; cbn [fst snd app].
  - split; reflexivity.
  - unfold malloc. rewrite fill_areas, append_switches.
    change (set_trianglearealist mid
              (Some (repeat (area g) (Z.to_nat (numberoftriangles mid)))))
      with constrained.
    change "Y"%string with (String "Y"%char EmptyString).
    rewrite replicate_string_chars. fold triOptions.
    split; [reflexivity|]. split; [|reflexivity].
    intros i Hi. subst constrained. cbn [trianglearealist].
    apply read_repeat. lia.
Qed.

(** C1, as the code has it: point [i] of the final triangulation is
    appended as the cells (x, y, elevation) where the elevation carries the
    noise term [perlin2D(x, y, eleNoiseFreq)] exactly when the triangulation
    has a point-marker list and the marker of the point is not 1; a point
    with marker 1, and every point of a triangulation without a marker
    list, is appended without it. *)
Theorem addPolygon_noise_follows_marker (i : Z) :
  let io := final_triangulation self mesh polygon g a in
  let mesh' := polygon_mesh self mesh polygon g a in
  let at_ (r : nat) := nth (length (vertices mesh) + (3 * Z.to_nat i + r)) (vertices mesh') 0%float in
  0 <= i < numberofpoints io ->
  at_ 0%nat = point_x io i /\
  at_ 1%nat = point_y io i /\
  at_ 2%nat =
    match marker io i with
    | Some m =>
        if m =? 1 then plain_elevation self io g i
        else (plain_elevation self io g i + elevation_noise io g i)%float
    | None => plain_elevation self io g i
    end.
Proof.
  intros io mesh' at_ Hi. subst at_ mesh'. cbv beta.
  rewrite addPolygon_fills. fold io. rewrite fillMesh_vertices.
  rewrite !app_nth2_plus, Nat.add_0_r.
  destruct (nth_flat_map_triple (point_x io) (point_y io) (filled_elevation self io g)
              (zrange (Z.to_nat (numberofpoints io)) 0) (Z.to_nat i) 0%float 0)
    as (Hx & Hy & He).
  { rewrite zrange_length. lia. }
  rewrite zrange_nth in Hx, Hy, He by lia.
  rewrite Z2Nat.id in Hx, Hy, He by lia.
  rewrite Hx, Hy, He. repeat split; reflexivity.
Qed.

(** The triangle indices [addPolygon] appends, in the arithmetic of the
    machine: one round per unit of [numberoftriangles] converted to
    [std::size_t], each round three [int] sums of the start index and a
    corner read at a [std::size_t] subscript. *)
Lemma addPolygon_triangle_order :
  let io := final_triangulation self mesh polygon g a in
  let start := to_int (vertex_count mesh) in
  triangles (polygon_mesh self mesh polygon g a) =
  triangles mesh ++
  flat_map (fun i =>
              if flipSide g
              then [int_add start (corner io i 2); int_add start (corner io i 0);
                    int_add start (corner io i 1)]
              else [int_add start (corner io i 1); int_add start (corner io i 0);
                    int_add start (corner io i 2)])
           (zrange (Z.to_nat (to_size_t (numberoftriangles io))) 0).
Proof.
  intros io start. rewrite addPolygon_fills. fold io.
  rewrite fillMesh_triangles. fold start.
  now destruct (flipSide g).
Qed.

End PolygonProperties.

(** ** addPlane and addTriangle *)

Section PlaneAndTriangle.

Context `{Collaborators}.
Variable self : MeshBuilderImpl.
Variables (mesh : Mesh) (g : GeometryOptions) (a : AppearanceOptions).

Lemma addPlane_ele_eq (p1 p2 : Vector2.t) (ele1 ele2 : double) :
  let index := to_int (vertex_count mesh) in
  let top1 := (ele1 + heightOffset g)%float in
  let top2 := (ele2 + heightOffset g)%float in
  addPlane_ele mesh p1 p2 ele1 ele2 g a =
  {| vertices := vertices mesh ++
       [Vector2.x p1; Vector2.y p1; ele1;
        Vector2.x p2; Vector2.y p2; ele2;
        Vector2.x p2; Vector2.y p2; top2;
        Vector2.x p1; Vector2.y p1; top1;
        Vector2.x p1; Vector2.y p1; ele1;
        Vector2.x p2; Vector2.y p2; top2];
     triangles := triangles mesh ++
       [index; int_add index 2; int_add index 1;
        int_add index 3; int_add (int_add index 3) 2; int_add (int_add index 3) 1];
     colors := colors mesh ++ repeat (color_at a (Vector2.x p1) (Vector2.y p1)) 6;
     uvs := uvs mesh ++ repeat 0%float 12 |}.
Proof.
  intros index top1 top2. unfold addPlane_ele. rewrite !addVertex_eq.
  cbn [vertices triangles colors uvs repeat]. rewrite <- !app_assoc.
  reflexivity.
Qed.

Lemma addTriangle_eq (v0 v1 v2 : Vector3.t) :
  let startIndex := to_int (vertex_count mesh) in
  let color := color_at a (Vector3.x v0) (Vector3.z v0) in
  let front :=
    [Vector3.x v0; Vector3.z v0; Vector3.y v0;
     Vector3.x v1; Vector3.z v1; Vector3.y v1;
     Vector3.x v2; Vector3.z v2; Vector3.y v2] in
  let back :=
    [Vector3.x v2; Vector3.z v2; Vector3.y v2;
     Vector3.x v1; Vector3.z v1; Vector3.y v1;
     Vector3.x v0; Vector3.z v0; Vector3.y v0] in
  let i1 := int_add startIndex 1 in
  let i2 := int_add i1 1 in
  addTriangle mesh v0 v1 v2 g a =
  if hasBackSide g then
    {| vertices := vertices mesh ++ front ++ back;
       triangles := triangles mesh ++
         [startIndex; i1; i2; i2; int_add i2 1; int_add (int_add i2 1) 1];
       colors := colors mesh ++ repeat color 6;
       uvs := uvs mesh ++ repeat 0%float 12 |}
  else
    {| vertices := vertices mesh ++ front;
       triangles := triangles mesh ++ [startIndex; i1; i2];
       colors := colors mesh ++ repeat color 3;
       uvs := uvs mesh ++ repeat 0%float 6 |}.
Proof.
  intros startIndex color front back i1 i2. unfold addTriangle.
  destruct (hasBackSide g); rewrite !addVertex_v3_eq;
    cbn [vertices triangles colors uvs repeat]; rewrite <- !app_assoc;
    reflexivity.
Qed.

(** C5: [addPlane] with explicit elevations appends six vertices (eighteen
    cells), six triangle indices and six colours; the third and fourth
    vertex are the second and first with [heightOffset] added to the
    elevation; all six colours are the one colour the gradient gives at
    the noise value of [p1]; the two-point overload appends the same for
    the elevations it samples. *)
Theorem addPlane_quad (p1 p2 : Vector2.t) (ele1 ele2 : double) :
  let mesh' := addPlane_ele mesh p1 p2 ele1 ele2 g a in
  let color :=
    evaluate (gradient a)
      ((perlin2D (Vector2.x p1) (Vector2.y p1) (colorNoiseFreq a) + 1) / 2)%float in
  (vertices mesh' = vertices mesh ++
     [Vector2.x p1; Vector2.y p1; ele1;
      Vector2.x p2; Vector2.y p2; ele2;
      Vector2.x p2; Vector2.y p2; (ele2 + heightOffset g)%float;
      Vector2.x p1; Vector2.y p1; (ele1 + heightOffset g)%float;
      Vector2.x p1; Vector2.y p1; ele1;
      Vector2.x p2; Vector2.y p2; (ele2 + heightOffset g)%float] /\
   length (triangles mesh') = (length (triangles mesh) + 6)%nat /\
   colors mesh' = colors mesh ++ repeat color 6 /\
   length (uvs mesh') = (length (uvs mesh) + 12)%nat) /\
  exists sampled1 sampled2,
    addPlane self mesh p1 p2 g a = addPlane_ele mesh p1 p2 sampled1 sampled2 g a.
Proof.
  intros mesh' color. subst mesh'. rewrite addPlane_ele_eq.
  cbn [vertices triangles colors uvs]. rewrite !length_app.
  repeat split; try reflexivity.
  unfold addPlane. eauto.
Qed.

(** C9: [addPlane] (both overloads) and [addTriangle] append the texture
    coordinates (0,0) for each vertex whatever the texture region is;
    [addPolygon] appends, per point, what [createMapFunc] maps it to. *)
Theorem plane_and_triangle_untextured (polygon : Polygon) (p1 p2 : Vector2.t)
    (ele1 ele2 : double) (v0 v1 v2 : Vector3.t) :
  uvs (addPlane self mesh p1 p2 g a) = uvs mesh ++ repeat 0%float 12 /\
  uvs (addPlane_ele mesh p1 p2 ele1 ele2 g a) = uvs mesh ++ repeat 0%float 12 /\
  uvs (addTriangle mesh v0 v1 v2 g a) =
    uvs mesh ++ repeat 0%float (if hasBackSide g then 12 else 6) /\
  let io := final_triangulation self mesh polygon g a in
  uvs (polygon_mesh self mesh polygon g a) =
    uvs mesh ++
    flat_map (fun i => let uv := createMapFunc self a (point_x io i) (point_y io i) in
                       [Vector2.x uv; Vector2.y uv])
             (zrange (Z.to_nat (numberofpoints io)) 0).
Proof.
  repeat split.
  - unfold addPlane. now rewrite addPlane_ele_eq.
  - now rewrite addPlane_ele_eq.
  - rewrite addTriangle_eq. now destruct (hasBackSide g).
  - cbv zeta. now rewrite addPolygon_fills, fillMesh_uvs.
Qed.

(** C10: the two-point [addPlane] appends its first two vertices at the
    elevation the provider returns for the point plus the noise term
    [perlin2D(x, y, eleNoiseFreq)], and its result does not depend on
    [geometryOptions.elevation]. *)
Theorem addPlane_samples_and_adds_noise (p1 p2 : Vector2.t) :
  let sampled (p : Vector2.t) :=
    (getElevation (eleProvider_ self) (Vector2.y p) (Vector2.x p) +
     perlin2D (Vector2.x p) (Vector2.y p) (eleNoiseFreq g))%float in
  (exists rest,
     vertices (addPlane self mesh p1 p2 g a) =
     vertices mesh ++
       [Vector2.x p1; Vector2.y p1; sampled p1;
        Vector2.x p2; Vector2.y p2; sampled p2] ++ rest) /\
  forall e, addPlane self mesh p1 p2 (with_elevation g e) a =
            addPlane self mesh p1 p2 g a.
Proof.
  intros sampled. split.
  - unfold addPlane. rewrite addPlane_ele_eq. cbn [vertices].
    eexists. subst sampled. cbv beta. cbn [app]. reflexivity.
  - intros e. reflexivity.
Qed.

End PlaneAndTriangle.

(** ** Properties of every operation *)

Lemma invariant_after_append (mesh mesh' : Mesh) (k : Z) (ts : list Z) :
  mesh_invariant mesh -> 0 <= k ->
  size (vertices mesh') = size (vertices mesh) + 3 * k ->
  size (colors mesh') = size (colors mesh) + k ->
  size (uvs mesh') = size (uvs mesh) + 2 * k ->
  triangles mesh' = triangles mesh ++ ts ->
  Forall (fun t => 0 <= t < vertex_count mesh + k) ts ->
  mesh_invariant mesh'.
Proof.
  unfold mesh_invariant, vertex_count.
  intros (Hv & Hu & Ht) Hk Hv' Hc' Hu' Ht' Hts.
  assert (Hcount : size (vertices mesh') / 3 = size (vertices mesh) / 3 + k).
  { rewrite Hv', Hv. Z.to_euclidean_division_equations. lia. }
  repeat split.
  - lia.
  - rewrite Hc', Hu'. Z.to_euclidean_division_equations. lia.
  - rewrite Ht', Hcount. apply Forall_app. split; [|assumption].
    eapply Forall_impl; [|exact Ht]. cbv beta. intros t Hlt. lia.
Qed.

Lemma vertex_count_int (mesh : Mesh) (k : Z) :
  0 <= k -> room_for mesh k -> to_int (vertex_count mesh) = vertex_count mesh.
Proof.
  unfold room_for, vertex_count. intros Hk Hroom.
  pose proof (size_nonneg (vertices mesh)) as Hsize.
  apply to_int_id. unfold int_min. split; [|lia].
  Z.to_euclidean_division_equations. lia.
Qed.

Lemma vertex_count_nonneg (mesh : Mesh) : 0 <= vertex_count mesh.
Proof.
  unfold vertex_count. pose proof (size_nonneg (vertices mesh)).
  Z.to_euclidean_division_equations. lia.
Qed.

Section EveryOperation.

Context `{Collaborators}.
Variable self : MeshBuilderImpl.
Variables (mesh : Mesh) (polygon : Polygon) (g : GeometryOptions) (a : AppearanceOptions).
Variables (p1 p2 : Vector2.t) (ele1 ele2 : double) (v0 v1 v2 : Vector3.t).

Lemma addPlane_ele_invariant (e1 e2 : double) :
  mesh_invariant mesh -> room_for mesh 6 ->
  mesh_invariant (addPlane_ele mesh p1 p2 e1 e2 g a).
Proof.
  intros Hinv Hroom.
  pose proof (vertex_count_int mesh 6 ltac:(lia) Hroom) as Hidx.
  pose proof (vertex_count_nonneg mesh) as Hpos.
  unfold room_for, int_max in Hroom.
  eapply (invariant_after_append mesh _ 6); try exact Hinv;
    try (rewrite addPlane_ele_eq; cbn [vertices triangles colors uvs];
         rewrite ?size_app; reflexivity); [lia|].
  rewrite Hidx. unfold int_add.
  repeat (rewrite to_int_id by (unfold int_min, int_max; lia)).
  repeat constructor; lia.
Qed.

(** C3: each operation takes a mesh that satisfies the invariant to one
    that satisfies it, as long as the vertex count stays an [int]; for
    [addPolygon] the corners of the triangulation it fills from must name
    points of that triangulation. *)
Theorem builders_preserve_invariant :
  mesh_invariant mesh ->
  (let io := final_triangulation self mesh polygon g a in
   room_for mesh (numberofpoints io) -> corners_in_range io ->
   mesh_invariant (polygon_mesh self mesh polygon g a)) /\
  (room_for mesh 6 ->
   mesh_invariant (addPlane self mesh p1 p2 g a) /\
   mesh_invariant (addPlane_ele mesh p1 p2 ele1 ele2 g a)) /\
  (room_for mesh (if hasBackSide g then 6 else 3) ->
   mesh_invariant (addTriangle mesh v0 v1 v2 g a)).
Proof.
  intros Hinv. split; [|split].
  - intros io Hroom Hcorners. rewrite addPolygon_fills. fold io.
    set (n := Z.to_nat (numberofpoints io)).
    eapply (invariant_after_append mesh _ (Z.of_nat n)); try exact Hinv.
    + lia.
    + rewrite fillMesh_vertices, size_app. unfold size at 2.
      rewrite (flat_map_length_const _ 3) by reflexivity.
      rewrite zrange_length. fold n. lia.
    + rewrite fillMesh_colors, size_app. unfold size at 2.
      rewrite (flat_map_length_const _ 1) by reflexivity.
      rewrite zrange_length. fold n. lia.
    + rewrite fillMesh_uvs, size_app. unfold size at 2.
      rewrite (flat_map_length_const _ 2) by reflexivity.
      rewrite zrange_length. fold n. lia.
    + apply fillMesh_triangles.
    + apply Forall_flat_map, Forall_forall. intros i Hi.
      apply zrange_bounds in Hi.
      assert (Hi' : 0 <= i < to_size_t (numberoftriangles io)) by lia.
      pose proof (Hcorners i 0 Hi' ltac:(lia)) as H0.
      pose proof (Hcorners i 1 Hi' ltac:(lia)) as H1.
      pose proof (Hcorners i 2 Hi' ltac:(lia)) as H2.
      assert (Hn : Z.of_nat n = numberofpoints io) by (subst n; lia).
      rewrite (vertex_count_int mesh (numberofpoints io)) by (assumption || lia).
      pose proof (vertex_count_nonneg mesh) as Hpos.
      unfold room_for, int_max in Hroom. unfold int_add.
      destruct (flipSide g);
        repeat (rewrite to_int_id by (unfold int_min, int_max; lia));
        repeat constructor; lia.
  - intros Hroom. split; [unfold addPlane|]; now apply addPlane_ele_invariant.
  - intros Hroom.
    pose proof (vertex_count_nonneg mesh) as Hpos.
    assert (Hidx : to_int (vertex_count mesh) = vertex_count mesh).
    { apply (vertex_count_int mesh (if hasBackSide g then 6 else 3));
        [destruct (hasBackSide g); lia|assumption]. }
    unfold room_for, int_max in Hroom.
    rewrite addTriangle_eq. cbv zeta. rewrite Hidx. unfold int_add.
    destruct (hasBackSide g).
    + eapply (invariant_after_append mesh _ 6); try exact Hinv;
        try (cbn [vertices triangles colors uvs]; rewrite ?size_app; reflexivity);
        [lia|].
      repeat (rewrite to_int_id by (unfold int_min, int_max; lia)).
      repeat constructor; lia.
    + eapply (invariant_after_append mesh _ 3); try exact Hinv;
        try (cbn [vertices triangles colors uvs]; rewrite ?size_app; reflexivity);
        [lia|].
      repeat (rewrite to_int_id by (unfold int_min, int_max; lia)).
      repeat constructor; lia.
Qed.

(** C6: with an empty texture region every operation appends only zero
    texture coordinates, two per appended vertex. *)
Theorem empty_region_zero_uvs :
  isEmpty (textureRegion a) = true ->
  (let io := final_triangulation self mesh polygon g a in
   uvs (polygon_mesh self mesh polygon g a) =
     uvs mesh ++ repeat 0%float (2 * Z.to_nat (numberofpoints io))) /\
  uvs (addPlane self mesh p1 p2 g a) = uvs mesh ++ repeat 0%float (2 * 6) /\
  uvs (addPlane_ele mesh p1 p2 ele1 ele2 g a) = uvs mesh ++ repeat 0%float (2 * 6) /\
  uvs (addTriangle mesh v0 v1 v2 g a) =
    uvs mesh ++ repeat 0%float (2 * (if hasBackSide g then 6 else 3)).
Proof.
  intros Hempty. repeat split.
  - cbv zeta. rewrite addPolygon_fills, fillMesh_uvs. f_equal.
    unfold createMapFunc. rewrite Hempty. cbn [Vector2.x Vector2.y].
    change [0%float; 0%float] with (repeat 0%float 2).
    now rewrite flat_map_const_nil, zrange_length.
  - unfold addPlane. now rewrite addPlane_ele_eq.
  - now rewrite addPlane_ele_eq.
  - rewrite addTriangle_eq. now destruct (hasBackSide g).
Qed.

(** C8: each operation leaves every element of the four buffers of the
    mesh at its position and shortens none of them. *)
Theorem builders_only_append :
  only_appends mesh (polygon_mesh self mesh polygon g a) /\
  only_appends mesh (addPlane self mesh p1 p2 g a) /\
  only_appends mesh (addPlane_ele mesh p1 p2 ele1 ele2 g a) /\
  only_appends mesh (addTriangle mesh v0 v1 v2 g a).
Proof.
  unfold only_appends. split; [|split; [|split]].
  - rewrite addPolygon_fills, fillMesh_vertices, fillMesh_triangles,
      fillMesh_colors, fillMesh_uvs.
    repeat split; apply prefix_preserved.
  - unfold addPlane. rewrite addPlane_ele_eq.
    repeat split; apply prefix_preserved.
  - rewrite addPlane_ele_eq. repeat split; apply prefix_preserved.
  - rewrite addTriangle_eq. cbv zeta.
    destruct (hasBackSide g); repeat split; apply prefix_preserved.
Qed.

End EveryOperation.

(** ** The triangle indices of addPolygon in plain arithmetic *)

Section PolygonIndices.

Context `{Collaborators}.
Variable self : MeshBuilderImpl.
Variables (mesh : Mesh) (polygon : Polygon) (g : GeometryOptions) (a : AppearanceOptions).

Lemma flat_map_ext_in {A B : Type} (f f' : A -> list B) (l : list A) :
  (forall x, In x l -> f x = f' x) -> flat_map f l = flat_map f' l.
Proof.
  induction l as [|x l IH]; intros Hext; simpl; [reflexivity|].
  rewrite (Hext x (or_introl eq_refl)), IH; [reflexivity|].
  intros y Hy. apply Hext. now right.
Qed.

Lemma to_size_t_id (z : Z) : 0 <= z <= int_max -> to_size_t z = z.
Proof. unfold int_max, to_size_t. intros Hz. apply Z.mod_small. lia. Qed.

(** For counts as Triangle returns them the [std::size_t] subscript of a
    corner is the number [i * numberofcorners + c]. *)
Lemma corner_plain (io : triangulateio) (i c : Z) :
  counts_returned io -> 0 <= i < numberoftriangles io -> 0 <= c <= 2 ->
  corner io i c = corner_at io i c.
Proof.
  intros (_ & Htriangles & Hcorners) Hi Hc.
  unfold corner, corner_at, size_add, size_mul.
  rewrite (to_size_t_id (numberofcorners io)) by assumption.
  rewrite (to_size_t_id c) by (unfold int_max; lia).
  unfold int_max in Htriangles, Hcorners.
  assert (Hproduct : 0 <= i * numberofcorners io <= 2147483647 * 2147483647) by nia.
  unfold to_size_t. rewrite (Z.mod_small (i * numberofcorners io)) by lia.
  rewrite Z.mod_small by lia. reflexivity.
Qed.

(** C4, within the range of [int]: when the counts of the final
    triangulation are not negative, its corners name its points and the
    vertex count stays an [int], [addPolygon] appends, for each of the
    [numberoftriangles] triangles in turn, the vertex count the mesh had
    before the call plus corner 1, plus corner 0, plus corner 2 of the
    triangle (plus corner 2, 0, 1 when [flipSide] is set), corner [c] of
    triangle [i] being [trianglelist[i * numberofcorners + c]]. *)
Theorem addPolygon_triangle_indices :
  let io := final_triangulation self mesh polygon g a in
  let index (i c : Z) :=
    vertex_count mesh + read 0 (trianglelist io) (i * numberofcorners io + c) in
  counts_returned io -> room_for mesh (numberofpoints io) ->
  corners_name_points io ->
  triangles (polygon_mesh self mesh polygon g a) =
  triangles mesh ++
  flat_map (fun i =>
              if flipSide g
              then [index i 2; index i 0; index i 1]
              else [index i 1; index i 0; index i 2])
           (zrange (Z.to_nat (numberoftriangles io)) 0).
Proof.
  intros io index Hcounts Hroom Hcorners.
  rewrite addPolygon_triangle_order. fold io. cbv zeta.
  destruct Hcounts as (Hpoints & Htriangles & Hcorner_count).
  rewrite (to_size_t_id (numberoftriangles io)) by assumption.
  f_equal. apply flat_map_ext_in. intros i Hi. apply zrange_bounds in Hi.
  assert (Hi' : 0 <= i < numberoftriangles io) by lia.
  pose proof (Hcorners i 0 Hi' ltac:(lia)) as H0.
  pose proof (Hcorners i 1 Hi' ltac:(lia)) as H1.
  pose proof (Hcorners i 2 Hi' ltac:(lia)) as H2.
  rewrite !corner_plain by (repeat split; assumption || lia).
  unfold corner_at in H0, H1, H2 |- *.
  rewrite (vertex_count_int mesh (numberofpoints io)) by (assumption || lia).
  pose proof (vertex_count_nonneg mesh) as Hpos.
  unfold room_for, int_max in Hroom. unfold int_add. subst index. cbv beta.
  destruct (flipSide g);
    repeat (rewrite to_int_id by (unfold int_min, int_max; lia));
    reflexivity.
Qed.

End PolygonIndices.

(** ** The back side of addTriangle *)

(** With [hasBackSide] the six appended triangle indices are
    [n, n+1, n+2, n+2, n+3, n+4] in [int] arithmetic: the back triangle
    starts on the index the front triangle ended on. *)
Lemma addTriangle_back_side_indices `{Collaborators} (mesh : Mesh) (v0 v1 v2 : Vector3.t)
    (g : GeometryOptions) (a : AppearanceOptions) :
  hasBackSide g = true ->
  let n := to_int (vertex_count mesh) in
  let n2 := int_add (int_add n 1) 1 in
  triangles (addTriangle mesh v0 v1 v2 g a) =
  triangles mesh ++ [n; int_add n 1; n2; n2; int_add n2 1; int_add (int_add n2 1) 1].
Proof.
  intros Hback n n2. rewrite addTriangle_eq, Hback. reflexivity.
Qed.

(** C2, evaluated: on an empty mesh, [addTriangle] with [hasBackSide]
    appends six vertices and the six indices [0, 1, 2, 2, 3, 4]; the first
    triangle refers to (v0, v1, v2), the second to (v2, v2, v1), which is
    not the first reversed. *)
Lemma addTriangle_back_side_not_reversed :
  let mesh' :=
    addTriangle Sample.empty_mesh Sample.v0 Sample.v1 Sample.v2
                (Sample.geometry 0%float true) Sample.textured in
  length (vertices mesh') = 18%nat /\
  triangles mesh' = [0; 1; 2; 2; 3; 4] /\
  referenced mesh' 0 = [stored Sample.v0; stored Sample.v1; stored Sample.v2] /\
  referenced mesh' 1 = [stored Sample.v2; stored Sample.v2; stored Sample.v1] /\
  referenced mesh' 1 <> [stored Sample.v2; stored Sample.v1; stored Sample.v0].
Proof.
  cbv zeta. repeat split; try reflexivity.
  vm_compute. discriminate.
Qed.

(** ** The operations on concrete inputs *)

(** C1, as the specification words it, fails: the stand-in Triangle
    returns no marker list under ["pzBQ"], so with [area = 0] point 0 is
    not marked as boundary, yet it is appended at elevation 12 (offset 2
    plus ground 10) and not at 12.5, which would include the noise 0.5. *)
Lemma addPolygon_unmarked_point_without_noise :
  let g := Sample.geometry 0%float false in
  let io := final_triangulation Sample.builder Sample.empty_mesh Sample.polygon g
              Sample.textured in
  let mesh' := polygon_mesh Sample.builder Sample.empty_mesh Sample.polygon g
                 Sample.textured in
  0 <= 0 < numberofpoints io /\
  marker io 0 <> Some 1 /\
  nth 2 (vertices mesh') 0%float = 12%float /\
  spec_elevation Sample.builder io g 0 = 12.5%float /\
  nth 2 (vertices mesh') 0%float <> spec_elevation Sample.builder io g 0.
Proof.
  cbv zeta. repeat split; try reflexivity; vm_compute; discriminate.
Qed.

Lemma addPolygon_noise_follows_marker_witness :
  let g := Sample.geometry 0.5%float false in
  let io := final_triangulation Sample.builder Sample.empty_mesh Sample.polygon g
              Sample.textured in
  let mesh' := polygon_mesh Sample.builder Sample.empty_mesh Sample.polygon g
                 Sample.textured in
  (0 <= 2 < numberofpoints io) /\
  marker io 2 = Some 0 /\
  nth 8 (vertices mesh') 0%float = 12.5%float.
Proof.
  cbv zeta.
  assert (Hi : 0 <= 2 < numberofpoints
                 (final_triangulation Sample.builder Sample.empty_mesh Sample.polygon
                    (Sample.geometry 0.5%float false) Sample.textured)).
  { vm_compute. split; [discriminate|reflexivity]. }
  split; [exact Hi|]. split; [reflexivity|].
  destruct (addPolygon_noise_follows_marker Sample.builder Sample.empty_mesh
              Sample.polygon (Sample.geometry 0.5%float false) Sample.textured 2 Hi)
    as (_ & _ & He).
  exact He.
Defined.

Lemma sample_corners_in_range (sw : string) (input : triangulateio) :
  3 <= numberofpoints input -> corners_in_range (Sample.single_triangle sw input).
Proof.
  intros Hn i c Hi Hc. cbn in Hi.
  assert (i = 0) as -> by (unfold to_size_t in Hi; cbn in Hi; lia).
  assert (c = 0 \/ c = 1 \/ c = 2) as [-> | [-> | ->]] by lia;
    cbn [numberofpoints Sample.single_triangle]; vm_compute corner; lia.
Defined.

Lemma one_triangle_mesh_invariant : mesh_invariant Sample.one_triangle_mesh.
Proof.
  unfold mesh_invariant. repeat split; try reflexivity.
  repeat constructor; vm_compute; discriminate.
Defined.

Lemma builders_preserve_invariant_witness :
  let g := Sample.geometry 0%float true in
  let p1 := Vector2.make 1%float 2%float in
  let p2 := Vector2.make 3%float 4%float in
  let io := final_triangulation Sample.builder Sample.one_triangle_mesh Sample.polygon g
              Sample.textured in
  mesh_invariant Sample.one_triangle_mesh /\
  room_for Sample.one_triangle_mesh (numberofpoints io) /\
  corners_in_range io /\
  room_for Sample.one_triangle_mesh 6 /\
  mesh_invariant (polygon_mesh Sample.builder Sample.one_triangle_mesh Sample.polygon g
                    Sample.textured) /\
  mesh_invariant (addPlane Sample.builder Sample.one_triangle_mesh p1 p2 g Sample.textured) /\
  mesh_invariant (addPlane_ele Sample.one_triangle_mesh p1 p2 5%float 6%float g
                    Sample.textured) /\
  mesh_invariant (addTriangle Sample.one_triangle_mesh Sample.v0 Sample.v1 Sample.v2 g
                    Sample.textured).
Proof.
  cbv zeta.
  assert (Hroom3 : room_for Sample.one_triangle_mesh
            (numberofpoints
               (final_triangulation Sample.builder Sample.one_triangle_mesh Sample.polygon
                  (Sample.geometry 0%float true) Sample.textured))).
  { vm_compute. discriminate. }
  assert (Hroom6 : room_for Sample.one_triangle_mesh 6).
  { vm_compute. discriminate. }
  assert (Hcorners : corners_in_range
            (final_triangulation Sample.builder Sample.one_triangle_mesh Sample.polygon
               (Sample.geometry 0%float true) Sample.textured)).
  { apply sample_corners_in_range. vm_compute. discriminate. }
  destruct (builders_preserve_invariant Sample.builder Sample.one_triangle_mesh
              Sample.polygon (Sample.geometry 0%float true) Sample.textured
              (Vector2.make 1%float 2%float) (Vector2.make 3%float 4%float)
              5%float 6%float Sample.v0 Sample.v1 Sample.v2
              one_triangle_mesh_invariant)
    as (Hpoly & Hplane & Htri).
  destruct (Hplane Hroom6) as (Hplane2 & Hplane_ele).
  exact (conj one_triangle_mesh_invariant
           (conj Hroom3 (conj Hcorners (conj Hroom6
              (conj (Hpoly Hroom3 Hcorners)
                 (conj Hplane2 (conj Hplane_ele (Htri Hroom6)))))))).
Defined.

Lemma empty_region_zero_uvs_witness :
  let g := Sample.geometry 0%float true in
  let a := Sample.appearance None in
  let p1 := Vector2.make 1%float 2%float in
  let p2 := Vector2.make 3%float 4%float in
  isEmpty (textureRegion a) = true /\
  uvs (polygon_mesh Sample.builder Sample.empty_mesh Sample.polygon g a) =
    repeat 0%float 6 /\
  uvs (addPlane Sample.builder Sample.empty_mesh p1 p2 g a) = repeat 0%float 12 /\
  uvs (addPlane_ele Sample.empty_mesh p1 p2 5%float 6%float g a) = repeat 0%float 12 /\
  uvs (addTriangle Sample.empty_mesh Sample.v0 Sample.v1 Sample.v2 g a) =
    repeat 0%float 12.
Proof.
  cbv zeta. split; [reflexivity|].
  exact (empty_region_zero_uvs Sample.builder Sample.empty_mesh Sample.polygon
           (Sample.geometry 0%float true) (Sample.appearance None)
           (Vector2.make 1%float 2%float) (Vector2.make 3%float 4%float)
           5%float 6%float Sample.v0 Sample.v1 Sample.v2 eq_refl).
Defined.

Lemma size_repeat {A : Type} (x : A) (n : Z) : 0 <= n -> size (repeat x (Z.to_nat n)) = n.
Proof. intros Hn. unfold size. rewrite repeat_length. lia. Qed.

(** A mesh without triangles satisfies the invariant as soon as its three
    other buffers have matching sizes. *)
Lemma invariant_without_triangles (mesh : Mesh) (n : Z) :
  size (vertices mesh) = 3 * n -> size (colors mesh) = n ->
  size (uvs mesh) = 2 * n -> triangles mesh = [] ->
  mesh_invariant mesh.
Proof.
  intros Hv Hc Hu Ht. unfold mesh_invariant. rewrite Hv, Hc, Hu, Ht.
  repeat split; [lia | Z.to_euclidean_division_equations; lia | constructor].
Qed.

(** Once the vertex count is 2^31, [addTriangle] appends -2^31 as an
    index, and the invariant is gone. *)
Lemma addTriangle_index_wraps `{Collaborators} (mesh : Mesh) (v0 v1 v2 : Vector3.t)
    (g : GeometryOptions) (a : AppearanceOptions) :
  vertex_count mesh = 2147483648 ->
  nth_error (triangles (addTriangle mesh v0 v1 v2 g a)) (length (triangles mesh)) =
    Some (-2147483648) /\
  ~ mesh_invariant (addTriangle mesh v0 v1 v2 g a).
Proof.
  intros Hn.
  assert (Ht : exists rest, triangles (addTriangle mesh v0 v1 v2 g a) =
                            triangles mesh ++ (-2147483648) :: rest).
  { rewrite addTriangle_eq. cbv zeta. rewrite Hn.
    destruct (hasBackSide g); cbn [triangles]; eexists; reflexivity. }
  destruct Ht as (rest & Ht). rewrite Ht. split.
  - rewrite nth_error_app2, Nat.sub_diag by lia. reflexivity.
  - intros (_ & _ & Hall). rewrite Ht in Hall.
    apply Forall_app in Hall. destruct Hall as (_ & Hall).
    apply Forall_inv in Hall. lia.
Qed.

Lemma huge_mesh_vertex_count : vertex_count Sample.huge_mesh = 2147483648.
Proof.
  unfold vertex_count. cbn [vertices Sample.huge_mesh].
  rewrite size_repeat by lia. reflexivity.
Qed.

(** C3, as the specification words it, fails on a mesh whose vertex count
    no longer is an [int]: the mesh of 2^31 vertices satisfies the
    invariant, [static_cast<int>] takes its vertex count to -2^31, and
    [addTriangle] appends that negative number as its first triangle
    index. *)
Lemma addTriangle_breaks_invariant_beyond_int :
  let mesh' :=
    addTriangle Sample.huge_mesh Sample.v0 Sample.v1 Sample.v2
                (Sample.geometry 0%float false) Sample.textured in
  mesh_invariant Sample.huge_mesh /\
  vertex_count Sample.huge_mesh = 2147483648 /\
  nth_error (triangles mesh') (length (triangles Sample.huge_mesh)) = Some (-2147483648) /\
  ~ mesh_invariant mesh'.
Proof.
  cbv zeta. split; [|split; [exact huge_mesh_vertex_count|]].
  - apply (invariant_without_triangles Sample.huge_mesh 2147483648).
    + cbn [vertices Sample.huge_mesh]. now apply size_repeat.
    + cbn [colors Sample.huge_mesh]. now apply size_repeat.
    + cbn [uvs Sample.huge_mesh]. now apply size_repeat.
    + reflexivity.
  - apply addTriangle_index_wraps. exact huge_mesh_vertex_count.
Qed.

(** ** Further properties: what an operation appends *)

Lemma skipn_own_length {A : Type} (l s : list A) : skipn (length l) (l ++ s) = s.
Proof. induction l as [|x l IH]; simpl; [reflexivity|exact IH]. Qed.

(** A mesh that extends [mesh] by four suffixes has them as [appended]. *)
Lemma appended_suffixes (mesh mesh' : Mesh) (dv : list double) (dt dc : list Z) (du : list double) :
  vertices mesh' = vertices mesh ++ dv -> triangles mesh' = triangles mesh ++ dt ->
  colors mesh' = colors mesh ++ dc -> uvs mesh' = uvs mesh ++ du ->
  appended mesh mesh' = {| vertices := dv; triangles := dt; colors := dc; uvs := du |}.
Proof.
  intros Hv Ht Hc Hu. unfold appended. rewrite Hv, Ht, Hc, Hu.
  now rewrite !skipn_own_length.
Qed.

Lemma for_range_ext {St : Type} (body body' : Z -> St -> St) :
  (forall i s, body i s = body' i s) ->
  forall n i s, for_range n i body s = for_range n i body' s.
Proof.
  intros Hbody. induction n as [|n IH]; intros i s; simpl.
  - reflexivity.
  - now rewrite Hbody, IH.
Qed.

Lemma nth_flat_map_single {A B : Type} (f : A -> B) (l : list A) (k : nat) (d : B) (da : A) :
  (k < length l)%nat -> nth k (flat_map (fun x => [f x]) l) d = f (nth k l da).
Proof.
  revert k. induction l as [|x l IH]; intros k Hk; simpl in Hk; [lia|].
  destruct k as [|k]; simpl; [reflexivity|]. apply IH. lia.
Qed.

Lemma nth_flat_map_pair {A B : Type} (f h : A -> B) (l : list A) (k : nat) (d : B) (da : A) :
  (k < length l)%nat ->
  nth (2 * k) (flat_map (fun x => [f x; h x]) l) d = f (nth k l da) /\
  nth (2 * k + 1) (flat_map (fun x => [f x; h x]) l) d = h (nth k l da).
Proof.
  revert k. induction l as [|x l IH]; intros k Hk; simpl in Hk; [lia|].
  destruct k as [|k].
  - simpl. auto.
  - replace (2 * S k)%nat with (S (S (2 * k))) by lia. simpl. apply IH. lia.
Qed.

Lemma reverse_triples_flat_map {A : Type} (f0 f1 f2 : A -> Z) (l : list A) :
  reverse_triples (flat_map (fun x => [f0 x; f1 x; f2 x]) l) =
  flat_map (fun x => [f2 x; f1 x; f0 x]) l.
Proof. induction l as [|x l IH]; simpl; [reflexivity|now rewrite IH]. Qed.

(** The calls [addPolygon] makes are decided by the polygon, [area] and
    [segmentSplit]. *)
Lemma polygon_calls_decided `{Collaborators} (self self' : MeshBuilderImpl) (mesh mesh' : Mesh)
    (polygon : Polygon) (g g' : GeometryOptions) (a a' : AppearanceOptions) :
  area g = area g' -> segmentSplit g = segmentSplit g' ->
  polygon_calls self mesh polygon g a = polygon_calls self' mesh' polygon g' a'.
Proof.
  intros Harea Hsplit.
  unfold polygon_calls, run, addPolygon, bind, call_triangulate, ret.
  rewrite Harea, Hsplit.
  now destruct (abs (area g') <? epsilon)%float.
Qed.

Lemma final_triangulation_decided `{Collaborators} (self self' : MeshBuilderImpl)
    (mesh mesh' : Mesh) (polygon : Polygon) (g g' : GeometryOptions)
    (a a' : AppearanceOptions) :
  area g = area g' -> segmentSplit g = segmentSplit g' ->
  final_triangulation self mesh polygon g a = final_triangulation self' mesh' polygon g' a'.
Proof.
  intros Harea Hsplit. unfold final_triangulation.
  now rewrite (polygon_calls_decided self self' mesh mesh' polygon g g' a a').
Qed.

Lemma vertex_count_after (mesh mesh' : Mesh) (k : Z) :
  whole_vertices mesh -> size (vertices mesh') = size (vertices mesh) + 3 * k ->
  vertex_count mesh' = vertex_count mesh + k /\ whole_vertices mesh'.
Proof.
  unfold whole_vertices, vertex_count. intros Hwhole Hsize. rewrite Hsize.
  split; Z.to_euclidean_division_equations; lia.
Qed.

(** Under [whole_vertices], vertex number [vertex_count mesh + k] of an
    extended mesh is made of cells [3k], [3k+1], [3k+2] of the suffix. *)
Lemma vertex_at_appended (mesh mesh' : Mesh) (dv : list double) (k : nat) :
  whole_vertices mesh -> vertices mesh' = vertices mesh ++ dv ->
  vertex_at mesh' (Z.to_nat (vertex_count mesh + Z.of_nat k)) =
  (nth (3 * k) dv 0%float, nth (3 * k + 1) dv 0%float, nth (3 * k + 2) dv 0%float).
Proof.
  unfold whole_vertices, vertex_count, vertex_at, size. intros Hwhole Hv.
  assert (Hidx : (3 * Z.to_nat (Z.of_nat (length (vertices mesh)) / 3 + Z.of_nat k) =
                  length (vertices mesh) + 3 * k)%nat).
  { Z.to_euclidean_division_equations. lia. }
  rewrite Hidx, Hv, <- !Nat.add_assoc, !app_nth2_plus. reflexivity.
Qed.

Section Appending.

Context `{Collaborators}.
Variable self : MeshBuilderImpl.
Variables (mesh : Mesh) (g : GeometryOptions) (a : AppearanceOptions).

(** X1: for a triangulation output whose counts are not negative, as
    Triangle returns them, [fillMesh] appends three vertex cells, one
    colour and two texture coordinates per point, and three indices per
    triangle. *)
Theorem fillMesh_appended_sizes (io : triangulateio) :
  counts_returned io ->
  let mesh' := fillMesh self io mesh g a in
  size (vertices mesh') = size (vertices mesh) + 3 * numberofpoints io /\
  size (colors mesh') = size (colors mesh) + numberofpoints io /\
  size (uvs mesh') = size (uvs mesh) + 2 * numberofpoints io /\
  size (triangles mesh') = size (triangles mesh) + 3 * numberoftriangles io.
Proof.
  intros (Hpoints & Htriangles & _). cbv zeta.
  rewrite fillMesh_vertices, fillMesh_colors, fillMesh_uvs, fillMesh_triangles.
  rewrite (to_size_t_id (numberoftriangles io)) by assumption.
  rewrite !size_app. unfold size.
  rewrite (flat_map_length_const _ 3), (flat_map_length_const _ 1),
    (flat_map_length_const _ 2), (flat_map_length_const _ 3) by reflexivity.
  rewrite !zrange_length. repeat split; lia.
Qed.

(** X2: [addTriangle] appends the vertices v0, v1, v2, and behind them
    v2, v1, v0 when [hasBackSide] is set, each as the cells x, z, y; every
    appended vertex gets the one colour the gradient gives at the noise
    value of (v0.x, v0.z), and one triangle index is appended per
    vertex. *)
Theorem addTriangle_appended (v0 v1 v2 : Vector3.t) :
  let mesh' := addTriangle mesh v0 v1 v2 g a in
  let cells3 (v : Vector3.t) := [Vector3.x v; Vector3.z v; Vector3.y v] in
  let count := if hasBackSide g then 6%nat else 3%nat in
  let color :=
    evaluate (gradient a)
      ((perlin2D (Vector3.x v0) (Vector3.z v0) (colorNoiseFreq a) + 1) / 2)%float in
  vertices (appended mesh mesh') =
    cells3 v0 ++ cells3 v1 ++ cells3 v2 ++
    (if hasBackSide g then cells3 v2 ++ cells3 v1 ++ cells3 v0 else []) /\
  colors (appended mesh mesh') = repeat color count /\
  length (triangles (appended mesh mesh')) = count.
Proof.
  cbv zeta. rewrite addTriangle_eq. cbv zeta.
  destruct (hasBackSide g);
    (erewrite appended_suffixes by (cbn [vertices triangles colors uvs]; reflexivity));
    cbn [vertices triangles colors uvs]; repeat split; reflexivity.
Qed.

End Appending.

(** ** Further properties: the indices an operation appends *)

Lemma vertex_at_new (mesh mesh' : Mesh) (dv : list double) (k : Z) :
  whole_vertices mesh -> vertices mesh' = vertices mesh ++ dv -> 0 <= k ->
  vertex_at mesh' (Z.to_nat (vertex_count mesh + k)) =
  (nth (3 * Z.to_nat k) dv 0%float, nth (3 * Z.to_nat k + 1) dv 0%float,
   nth (3 * Z.to_nat k + 2) dv 0%float).
Proof.
  intros Hwhole Hv Hk.
  rewrite <- (vertex_at_appended mesh mesh' dv (Z.to_nat k) Hwhole Hv).
  now rewrite Z2Nat.id.
Qed.

Lemma new_indices (mesh mesh' : Mesh) (k : Z) (dt : list Z) :
  whole_vertices mesh -> size (vertices mesh') = size (vertices mesh) + 3 * k ->
  triangles mesh' = triangles mesh ++ dt ->
  Forall (fun t => vertex_count mesh <= t < vertex_count mesh + k) dt ->
  Forall (fun t => vertex_count mesh <= t < vertex_count mesh')
         (triangles (appended mesh mesh')).
Proof.
  intros Hwhole Hsize Ht Hdt.
  destruct (vertex_count_after mesh mesh' k Hwhole Hsize) as (-> & _).
  unfold appended. cbn [triangles]. now rewrite Ht, skipn_own_length.
Qed.

(** Without overflow the six indices of [addPlane] are the vertex count
    plus 0, 2, 1, 3, 5, 4. *)
Lemma addPlane_ele_indices `{Collaborators} (mesh : Mesh) (p1 p2 : Vector2.t)
    (ele1 ele2 : double) (g : GeometryOptions) (a : AppearanceOptions) :
  room_for mesh 6 ->
  triangles (addPlane_ele mesh p1 p2 ele1 ele2 g a) =
  triangles mesh ++ List.map (Z.add (vertex_count mesh)) [0; 2; 1; 3; 5; 4].
Proof.
  intros Hroom. rewrite addPlane_ele_eq. cbv zeta. cbn [triangles List.map].
  rewrite (vertex_count_int mesh 6) by (assumption || lia).
  pose proof (vertex_count_nonneg mesh) as Hpos.
  unfold room_for, int_max in Hroom. unfold int_add.
  repeat (rewrite to_int_id by (unfold int_min, int_max; lia)).
  apply f_equal. repeat (apply (f_equal2 cons); [lia|]). reflexivity.
Qed.

(** Without overflow the indices of [addTriangle] are the vertex count
    plus 0, 1, 2 and, for the back side, plus 2, 3, 4. *)
Lemma addTriangle_indices `{Collaborators} (mesh : Mesh) (v0 v1 v2 : Vector3.t)
    (g : GeometryOptions) (a : AppearanceOptions) :
  room_for mesh (if hasBackSide g then 6 else 3) ->
  triangles (addTriangle mesh v0 v1 v2 g a) =
  triangles mesh ++
  List.map (Z.add (vertex_count mesh))
           (if hasBackSide g then [0; 1; 2; 2; 3; 4] else [0; 1; 2]).
Proof.
  intros Hroom. rewrite addTriangle_eq. cbv zeta.
  pose proof (vertex_count_nonneg mesh) as Hpos.
  assert (Hidx : to_int (vertex_count mesh) = vertex_count mesh).
  { apply (vertex_count_int mesh (if hasBackSide g then 6 else 3));
      [destruct (hasBackSide g); lia|assumption]. }
  rewrite Hidx. unfold room_for, int_max in Hroom. unfold int_add.
  destruct (hasBackSide g); cbn [triangles List.map];
    repeat (rewrite to_int_id by (unfold int_min, int_max; lia));
    apply f_equal; repeat (apply (f_equal2 cons); [lia|]); reflexivity.
Qed.

Section Indices.

Context `{Collaborators}.
Variable self : MeshBuilderImpl.
Variables (mesh : Mesh) (polygon : Polygon) (g : GeometryOptions) (a : AppearanceOptions).
Variables (p1 p2 : Vector2.t) (ele1 ele2 : double) (v0 v1 v2 : Vector3.t).

(** X3: on a mesh that holds whole vertices, and as long as the vertex
    count stays an [int], every index an operation appends names a vertex
    that this same operation appended: it lies from the vertex count before
    the call up to, and not including, the vertex count after it.  For
    [addPolygon] the corners of the triangulation must name its points. *)
Theorem appended_indices_are_new :
  whole_vertices mesh ->
  let fresh (mesh' : Mesh) :=
    Forall (fun t => vertex_count mesh <= t < vertex_count mesh')
           (triangles (appended mesh mesh')) in
  (let io := final_triangulation self mesh polygon g a in
   room_for mesh (numberofpoints io) -> corners_in_range io ->
   fresh (polygon_mesh self mesh polygon g a)) /\
  (room_for mesh 6 ->
   fresh (addPlane self mesh p1 p2 g a) /\
   fresh (addPlane_ele mesh p1 p2 ele1 ele2 g a)) /\
  (room_for mesh (if hasBackSide g then 6 else 3) ->
   fresh (addTriangle mesh v0 v1 v2 g a)).
Proof.
  intros Hwhole fresh. subst fresh. cbv beta.
  assert (Hplane : forall e1 e2, room_for mesh 6 ->
            Forall (fun t => vertex_count mesh <= t <
                             vertex_count (addPlane_ele mesh p1 p2 e1 e2 g a))
                   (triangles (appended mesh (addPlane_ele mesh p1 p2 e1 e2 g a)))).
  { intros e1 e2 Hroom.
    eapply (new_indices mesh _ 6); [exact Hwhole | | now apply addPlane_ele_indices |].
    - rewrite addPlane_ele_eq. cbn [vertices]. now rewrite size_app.
    - cbn [List.map]. repeat constructor; lia. }
  split; [|split].
  - intros io Hroom Hcorners. rewrite addPolygon_fills. fold io.
    set (n := Z.to_nat (numberofpoints io)).
    eapply (new_indices mesh _ (Z.of_nat n)); [exact Hwhole | | apply fillMesh_triangles |].
    + rewrite fillMesh_vertices, size_app. unfold size at 2.
      rewrite (flat_map_length_const _ 3) by reflexivity.
      rewrite zrange_length. fold n. lia.
    + apply Forall_flat_map, Forall_forall. intros i Hi.
      apply zrange_bounds in Hi.
      assert (Hi' : 0 <= i < to_size_t (numberoftriangles io)) by lia.
      pose proof (Hcorners i 0 Hi' ltac:(lia)) as H0.
      pose proof (Hcorners i 1 Hi' ltac:(lia)) as H1.
      pose proof (Hcorners i 2 Hi' ltac:(lia)) as H2.
      assert (Hn : Z.of_nat n = numberofpoints io) by (subst n; lia).
      rewrite (vertex_count_int mesh (numberofpoints io)) by (assumption || lia).
      pose proof (vertex_count_nonneg mesh) as Hpos.
      unfold room_for, int_max in Hroom. unfold int_add.
      destruct (flipSide g);
        repeat (rewrite to_int_id by (unfold int_min, int_max; lia));
        repeat constructor; lia.
  - intros Hroom. split; [unfold addPlane|]; now apply Hplane.
  - intros Hroom.
    eapply (new_indices mesh _ (if hasBackSide g then 6 else 3));
      [exact Hwhole | | now apply addTriangle_indices |].
    + rewrite addTriangle_eq. cbv zeta.
      destruct (hasBackSide g); cbn [vertices]; now rewrite size_app.
    + destruct (hasBackSide g); cbn [List.map]; repeat constructor; lia.
Qed.

(** X4: on a mesh that holds whole vertices, and as long as the vertex
    count stays an [int], the two triangles of [addPlane] refer to
    (p1 at base, p2 at top, p2 at base) and (p1 at top, p2 at top, p1 at
    base), top being the base elevation plus [heightOffset]; each of the six
    appended vertices is referred to once. *)
Theorem addPlane_faces :
  whole_vertices mesh -> room_for mesh 6 ->
  let mesh' := addPlane_ele mesh p1 p2 ele1 ele2 g a in
  let top1 := (ele1 + heightOffset g)%float in
  let top2 := (ele2 + heightOffset g)%float in
  triangles (appended mesh mesh') =
    List.map (Z.add (vertex_count mesh)) [0; 2; 1; 3; 5; 4] /\
  appended_triangle mesh mesh' 0 = [cells p1 ele1; cells p2 top2; cells p2 ele2] /\
  appended_triangle mesh mesh' 1 = [cells p1 top1; cells p2 top2; cells p1 ele1].
Proof.
  intros Hwhole Hroom mesh' top1 top2.
  assert (Ht : triangles (appended mesh mesh') =
               List.map (Z.add (vertex_count mesh)) [0; 2; 1; 3; 5; 4]).
  { unfold appended. cbn [triangles]. subst mesh'.
    now rewrite addPlane_ele_indices, skipn_own_length. }
  assert (Hv : vertices mesh' = vertices mesh ++
                 [Vector2.x p1; Vector2.y p1; ele1;
                  Vector2.x p2; Vector2.y p2; ele2;
                  Vector2.x p2; Vector2.y p2; top2;
                  Vector2.x p1; Vector2.y p1; top1;
                  Vector2.x p1; Vector2.y p1; ele1;
                  Vector2.x p2; Vector2.y p2; top2]).
  { subst mesh'. now rewrite addPlane_ele_eq. }
  split; [exact Ht|].
  unfold appended_triangle. rewrite Ht. cbn [List.map firstn skipn Nat.mul Nat.add].
  rewrite !(vertex_at_new mesh mesh' _ _ Hwhole Hv) by lia.
  split; reflexivity.
Qed.

(** X5: on a mesh that holds whole vertices, and as long as the vertex
    count stays an [int], the triangle of [addTriangle] refers to
    (v0, v1, v2) in this order; with [hasBackSide] the second triangle
    refers to (v2, v2, v1): to the last vertex of the front side, then to
    the first two of the back side. *)
Theorem addTriangle_faces :
  whole_vertices mesh -> room_for mesh (if hasBackSide g then 6 else 3) ->
  let mesh' := addTriangle mesh v0 v1 v2 g a in
  appended_triangle mesh mesh' 0 = [stored v0; stored v1; stored v2] /\
  appended_triangle mesh mesh' 1 =
    (if hasBackSide g then [stored v2; stored v2; stored v1] else []).
Proof.
  intros Hwhole Hroom mesh'.
  assert (Ht : triangles (appended mesh mesh') =
               List.map (Z.add (vertex_count mesh))
                        (if hasBackSide g then [0; 1; 2; 2; 3; 4] else [0; 1; 2])).
  { unfold appended. cbn [triangles]. subst mesh'.
    now rewrite addTriangle_indices, skipn_own_length. }
  assert (Hv : vertices mesh' = vertices mesh ++
                 [Vector3.x v0; Vector3.z v0; Vector3.y v0;
                  Vector3.x v1; Vector3.z v1; Vector3.y v1;
                  Vector3.x v2; Vector3.z v2; Vector3.y v2] ++
                 (if hasBackSide g
                  then [Vector3.x v2; Vector3.z v2; Vector3.y v2;
                        Vector3.x v1; Vector3.z v1; Vector3.y v1;
                        Vector3.x v0; Vector3.z v0; Vector3.y v0]
                  else [])).
  { subst mesh'. rewrite addTriangle_eq. cbv zeta.
    destruct (hasBackSide g); cbn [vertices app]; reflexivity. }
  unfold appended_triangle, stored. rewrite Ht.
  destruct (hasBackSide g); cbn [List.map firstn skipn Nat.mul Nat.add];
    rewrite !(vertex_at_new mesh mesh' _ _ Hwhole Hv) by lia;
    split; reflexivity.
Qed.

End Indices.

(** ** Further properties: what the options and the mesh do not decide *)

Lemma createMapFunc_bbox `{Collaborators} (self self' : MeshBuilderImpl) (a : AppearanceOptions) :
  bbox self = bbox self' -> createMapFunc self a = createMapFunc self' a.
Proof. intros Hbbox. unfold createMapFunc. now rewrite Hbbox. Qed.

Section Options.

Context `{Collaborators}.
Variables (self self' : MeshBuilderImpl).
Variables (mesh mesh2 : Mesh) (polygon : Polygon).
Variables (g g' : GeometryOptions) (a a' : AppearanceOptions).
Variables (p1 p2 : Vector2.t) (ele1 ele2 : double) (v0 v1 v2 : Vector3.t).

(** X6: setting [flipSide] the other way leaves the vertices, colours and
    texture coordinates [addPolygon] appends as they are and reverses each
    appended triangle: its three indices come out in the opposite order. *)
Theorem flipSide_reverses_triangles :
  let flipped := with_flipSide g (negb (flipSide g)) in
  let plain_mesh := polygon_mesh self mesh polygon g a in
  let flipped_mesh := polygon_mesh self mesh polygon flipped a in
  vertices flipped_mesh = vertices plain_mesh /\
  colors flipped_mesh = colors plain_mesh /\
  uvs flipped_mesh = uvs plain_mesh /\
  triangles (appended mesh flipped_mesh) =
    reverse_triples (triangles (appended mesh plain_mesh)).
Proof.
  intros flipped plain_mesh flipped_mesh. subst plain_mesh flipped_mesh.
  rewrite !addPolygon_fills.
  rewrite (final_triangulation_decided self self mesh mesh polygon flipped g a a)
    by reflexivity.
  set (io := final_triangulation self mesh polygon g a).
  rewrite !fillMesh_vertices, !fillMesh_colors, !fillMesh_uvs.
  repeat split; try reflexivity.
  unfold appended. cbn [triangles].
  rewrite !fillMesh_triangles, !skipn_own_length, reverse_triples_flat_map.
  subst flipped. cbn [flipSide with_flipSide].
  now destruct (flipSide g).
Qed.

(** X7: the calls [addPolygon] makes to Triangle, and so the triangulation
    it fills the mesh from, are the same for any two meshes, appearance
    options and builders, and for any two geometry options that agree on
    [area] and [segmentSplit]. *)
Theorem triangulation_decided_by_polygon_area_split :
  area g = area g' -> segmentSplit g = segmentSplit g' ->
  polygon_calls self mesh polygon g a = polygon_calls self' mesh2 polygon g' a' /\
  final_triangulation self mesh polygon g a =
    final_triangulation self' mesh2 polygon g' a'.
Proof.
  intros Harea Hsplit. split.
  - now apply polygon_calls_decided.
  - now apply final_triangulation_decided.
Qed.

(** X8: with an explicit elevation ([elevation] above the sentinel
    [lowest]) [addPolygon] never asks the elevation provider: two builders
    on the same tile return the same mesh whatever their providers are. *)
Theorem explicit_elevation_ignores_provider :
  (lowest <? elevation g)%float = true -> bbox self = bbox self' ->
  polygon_mesh self mesh polygon g a = polygon_mesh self' mesh polygon g a.
Proof.
  intros Hexplicit Hbbox. rewrite !addPolygon_fills.
  rewrite (final_triangulation_decided self' self mesh mesh polygon g g a a)
    by reflexivity.
  set (io := final_triangulation self mesh polygon g a).
  unfold fillMesh. rewrite (createMapFunc_bbox self self' a Hbbox).
  f_equal. apply for_range_ext. intros i s.
  unfold fillMesh_point. now rewrite Hexplicit.
Qed.

(** X9: [addTriangle] reads [hasBackSide] and nothing else of the geometry
    options, [addPlane] with explicit elevations reads [heightOffset] and
    nothing else, the two-point [addPlane] reads [eleNoiseFreq] besides;
    of the appearance options all three read the gradient and
    [colorNoiseFreq] only.  So [flipSide], [elevation], [area] and the
    texture settings change nothing for planes and triangles. *)
Theorem planes_and_triangles_ignore :
  gradient a = gradient a' -> colorNoiseFreq a = colorNoiseFreq a' ->
  (hasBackSide g = hasBackSide g' ->
   addTriangle mesh v0 v1 v2 g a = addTriangle mesh v0 v1 v2 g' a') /\
  (heightOffset g = heightOffset g' ->
   addPlane_ele mesh p1 p2 ele1 ele2 g a = addPlane_ele mesh p1 p2 ele1 ele2 g' a' /\
   (eleNoiseFreq g = eleNoiseFreq g' ->
    addPlane self mesh p1 p2 g a = addPlane self mesh p1 p2 g' a')).
Proof.
  intros Hgradient Hfreq. split.
  - intros Hback. unfold addTriangle. now rewrite Hgradient, Hfreq, Hback.
  - intros Hoffset. split.
    + unfold addPlane_ele. now rewrite Hgradient, Hfreq, Hoffset.
    + intros Hnoise. unfold addPlane, addPlane_ele.
      now rewrite Hgradient, Hfreq, Hoffset, Hnoise.
Qed.

(** X10: point [i] of the final triangulation gets the colour
    [getColor(gradient, x, y, colorNoiseFreq)] of its own coordinates,
    whatever the texture region is; when the texture region is not empty
    it gets the texture coordinates that the region maps
    ((x - min longitude) / width * scale,
    (y - min latitude) / height * scale) to, width and height being those
    of the tile's bounding box. *)
Theorem addPolygon_point_color_and_uv (i : Z) :
  let io := final_triangulation self mesh polygon g a in
  let mesh' := polygon_mesh self mesh polygon g a in
  let x := point_x io i in
  let y := point_y io i in
  let low := minPoint (bbox self) in
  let high := maxPoint (bbox self) in
  let relative :=
    Vector2.make
      ((x - longitude low) / (longitude high - longitude low) * textureScale a)%float
      ((y - latitude low) / (latitude high - latitude low) * textureScale a)%float in
  0 <= i < numberofpoints io ->
  nth (length (colors mesh) + Z.to_nat i) (colors mesh') 0 =
    getColor (gradient a) x y (colorNoiseFreq a) /\
  (isEmpty (textureRegion a) = false ->
   nth (length (uvs mesh) + 2 * Z.to_nat i) (uvs mesh') 0%float =
     Vector2.x (region_map (textureRegion a) relative) /\
   nth (length (uvs mesh) + (2 * Z.to_nat i + 1)) (uvs mesh') 0%float =
     Vector2.y (region_map (textureRegion a) relative)).
Proof.
  intros io mesh' x y low high relative Hi. subst mesh'.
  rewrite addPolygon_fills. fold io. rewrite fillMesh_colors, fillMesh_uvs.
  rewrite !app_nth2_plus.
  assert (Hlen : (Z.to_nat i < length (zrange (Z.to_nat (numberofpoints io)) 0))%nat).
  { rewrite zrange_length. lia. }
  rewrite (nth_flat_map_single _ _ _ _ 0 Hlen).
  destruct (nth_flat_map_pair
              (fun j => Vector2.x (createMapFunc self a (point_x io j) (point_y io j)))
              (fun j => Vector2.y (createMapFunc self a (point_x io j) (point_y io j)))
              _ _ 0%float 0 Hlen) as (Hu & Hv).
  rewrite Hu, Hv, zrange_nth by lia.
  rewrite Z.add_0_l, Z2Nat.id by lia.
  split; [reflexivity|].
  intros Hregion. unfold createMapFunc. rewrite Hregion.
  split; reflexivity.
Qed.

(** X11: what an operation appends depends on the mesh it is given only
    through the vertex count taken as an [int]: on two meshes with the
    same such count every operation appends the same vertices, indices,
    colours and texture coordinates. *)
Theorem appended_decided_by_vertex_count :
  to_int (vertex_count mesh) = to_int (vertex_count mesh2) ->
  appended mesh (polygon_mesh self mesh polygon g a) =
    appended mesh2 (polygon_mesh self mesh2 polygon g a) /\
  appended mesh (addPlane self mesh p1 p2 g a) =
    appended mesh2 (addPlane self mesh2 p1 p2 g a) /\
  appended mesh (addPlane_ele mesh p1 p2 ele1 ele2 g a) =
    appended mesh2 (addPlane_ele mesh2 p1 p2 ele1 ele2 g a) /\
  appended mesh (addTriangle mesh v0 v1 v2 g a) =
    appended mesh2 (addTriangle mesh2 v0 v1 v2 g a).
Proof.
  intros Hcount.
  assert (Hplane : forall e1 e2,
            appended mesh (addPlane_ele mesh p1 p2 e1 e2 g a) =
            appended mesh2 (addPlane_ele mesh2 p1 p2 e1 e2 g a)).
  { intros e1 e2.
    erewrite (appended_suffixes mesh)
      by (rewrite addPlane_ele_eq; cbn [vertices triangles colors uvs]; reflexivity).
    erewrite (appended_suffixes mesh2)
      by (rewrite addPlane_ele_eq; cbn [vertices triangles colors uvs]; reflexivity).
    now rewrite Hcount. }
  split; [|split; [|split]].
  - rewrite !addPolygon_fills.
    rewrite (final_triangulation_decided self self mesh2 mesh polygon g g a a)
      by reflexivity.
    erewrite (appended_suffixes mesh)
      by (first [apply fillMesh_vertices | apply fillMesh_triangles
                | apply fillMesh_colors | apply fillMesh_uvs]).
    erewrite (appended_suffixes mesh2)
      by (first [apply fillMesh_vertices | apply fillMesh_triangles
                | apply fillMesh_colors | apply fillMesh_uvs]).
    now rewrite Hcount.
  - unfold addPlane. apply Hplane.
  - apply Hplane.
  - rewrite !addTriangle_eq. cbv zeta.
    destruct (hasBackSide g);
      (erewrite (appended_suffixes mesh)
         by (cbn [vertices triangles colors uvs]; reflexivity));
      (erewrite (appended_suffixes mesh2)
         by (cbn [vertices triangles colors uvs]; reflexivity));
      now rewrite Hcount.
Qed.

End Options.

(** ** Further properties: operations in sequence *)

Section Sequence.

Context `{Collaborators}.
Variable self : MeshBuilderImpl.
Variables (mesh : Mesh) (polygon : Polygon) (g : GeometryOptions) (a : AppearanceOptions).
Variables (p1 p2 : Vector2.t) (ele1 ele2 : double) (v0 v1 v2 : Vector3.t).

(** X12: a mesh that holds whole vertices still does after any operation,
    and its vertex count has grown by 6 for [addPlane], by 3 or, with
    [hasBackSide], 6 for [addTriangle], and for [addPolygon] by the number
    of points of the final triangulation when its counts are not
    negative; so the next operation starts its indices right behind. *)
Theorem vertex_count_grows :
  whole_vertices mesh ->
  let grown (mesh' : Mesh) (k : Z) :=
    whole_vertices mesh' /\ vertex_count mesh' = vertex_count mesh + k in
  (let io := final_triangulation self mesh polygon g a in
   counts_returned io ->
   grown (polygon_mesh self mesh polygon g a) (numberofpoints io)) /\
  grown (addPlane self mesh p1 p2 g a) 6 /\
  grown (addPlane_ele mesh p1 p2 ele1 ele2 g a) 6 /\
  grown (addTriangle mesh v0 v1 v2 g a) (if hasBackSide g then 6 else 3).
Proof.
  intros Hwhole grown. subst grown. cbv beta.
  assert (Hplane : forall e1 e2,
            whole_vertices (addPlane_ele mesh p1 p2 e1 e2 g a) /\
            vertex_count (addPlane_ele mesh p1 p2 e1 e2 g a) = vertex_count mesh + 6).
  { intros e1 e2.
    destruct (vertex_count_after mesh (addPlane_ele mesh p1 p2 e1 e2 g a) 6 Hwhole);
      [|now split].
    rewrite addPlane_ele_eq. cbn [vertices]. now rewrite size_app. }
  split; [|split; [|split]].
  - intros io (Hpoints & _).
    destruct (vertex_count_after mesh (polygon_mesh self mesh polygon g a)
                (numberofpoints io) Hwhole); [|now split].
    rewrite addPolygon_fills. fold io.
    rewrite fillMesh_vertices, size_app. unfold size at 2.
    rewrite (flat_map_length_const _ 3) by reflexivity.
    rewrite zrange_length. lia.
  - unfold addPlane. apply Hplane.
  - apply Hplane.
  - destruct (vertex_count_after mesh (addTriangle mesh v0 v1 v2 g a)
                (if hasBackSide g then 6 else 3) Hwhole); [|now split].
    rewrite addTriangle_eq. cbv zeta.
    destruct (hasBackSide g); cbn [vertices]; now rewrite size_app.
Qed.

End Sequence.

(** ** The further properties on concrete inputs *)

Lemma one_triangle_mesh_whole : whole_vertices Sample.one_triangle_mesh.
Proof. reflexivity. Defined.

Lemma one_triangle_mesh_room (k : Z) : k <= 1000 -> room_for Sample.one_triangle_mesh k.
Proof.
  intros Hk. unfold room_for, int_max.
  change (vertex_count Sample.one_triangle_mesh) with 3. lia.
Defined.

Lemma appended_indices_are_new_witness :
  let m := Sample.one_triangle_mesh in
  let g := Sample.geometry 0%float true in
  let io := final_triangulation Sample.builder m Sample.polygon g Sample.textured in
  let fresh (mesh' : Mesh) :=
    Forall (fun t => vertex_count m <= t < vertex_count mesh')
           (triangles (appended m mesh')) in
  whole_vertices m /\ room_for m (numberofpoints io) /\ corners_in_range io /\
  room_for m 6 /\
  fresh (polygon_mesh Sample.builder m Sample.polygon g Sample.textured) /\
  fresh (addPlane Sample.builder m Scene.p1 Scene.p2 g Sample.textured) /\
  fresh (addPlane_ele m Scene.p1 Scene.p2 5%float 6%float g Sample.textured) /\
  fresh (addTriangle m Sample.v0 Sample.v1 Sample.v2 g Sample.textured).
Proof.
  cbv zeta.
  assert (Hroom3 : room_for Sample.one_triangle_mesh
            (numberofpoints
               (final_triangulation Sample.builder Sample.one_triangle_mesh Sample.polygon
                  (Sample.geometry 0%float true) Sample.textured))).
  { apply one_triangle_mesh_room. vm_compute. discriminate. }
  assert (Hroom6 : room_for Sample.one_triangle_mesh 6).
  { apply one_triangle_mesh_room. lia. }
  assert (Hcorners : corners_in_range
            (final_triangulation Sample.builder Sample.one_triangle_mesh Sample.polygon
               (Sample.geometry 0%float true) Sample.textured)).
  { apply sample_corners_in_range. vm_compute. discriminate. }
  destruct (appended_indices_are_new Sample.builder Sample.one_triangle_mesh
              Sample.polygon (Sample.geometry 0%float true) Sample.textured
              Scene.p1 Scene.p2 5%float 6%float Sample.v0 Sample.v1 Sample.v2
              one_triangle_mesh_whole)
    as (Hpoly & Hplane & Htri).
  destruct (Hplane Hroom6) as (Hplane2 & Hplane_ele).
  exact (conj one_triangle_mesh_whole
           (conj Hroom3 (conj Hcorners (conj Hroom6
              (conj (Hpoly Hroom3 Hcorners)
                 (conj Hplane2 (conj Hplane_ele (Htri Hroom6)))))))).
Defined.

Lemma addPlane_faces_witness :
  let m := Sample.one_triangle_mesh in
  let mesh' := addPlane_ele m Scene.p1 Scene.p2 5%float 6%float
                 (Sample.geometry 0%float false) Sample.textured in
  whole_vertices m /\ room_for m 6 /\
  triangles (appended m mesh') = [3; 5; 4; 6; 8; 7] /\
  appended_triangle m mesh' 0 =
    [cells Scene.p1 5%float; cells Scene.p2 8%float; cells Scene.p2 6%float] /\
  appended_triangle m mesh' 1 =
    [cells Scene.p1 7%float; cells Scene.p2 8%float; cells Scene.p1 5%float].
Proof.
  cbv zeta. split; [exact one_triangle_mesh_whole|].
  split; [apply one_triangle_mesh_room; lia|].
  exact (addPlane_faces Sample.one_triangle_mesh (Sample.geometry 0%float false)
           Sample.textured Scene.p1 Scene.p2 5%float 6%float
           one_triangle_mesh_whole (one_triangle_mesh_room 6 ltac:(lia))).
Defined.

Lemma addTriangle_faces_witness :
  let m := Sample.one_triangle_mesh in
  let mesh' := addTriangle m Sample.v0 Sample.v1 Sample.v2
                 (Sample.geometry 0%float true) Sample.textured in
  whole_vertices m /\ room_for m 6 /\
  appended_triangle m mesh' 0 =
    [stored Sample.v0; stored Sample.v1; stored Sample.v2] /\
  appended_triangle m mesh' 1 =
    [stored Sample.v2; stored Sample.v2; stored Sample.v1].
Proof.
  cbv zeta. split; [exact one_triangle_mesh_whole|].
  split; [apply one_triangle_mesh_room; lia|].
  exact (addTriangle_faces Sample.one_triangle_mesh (Sample.geometry 0%float true)
           Sample.textured Sample.v0 Sample.v1 Sample.v2
           one_triangle_mesh_whole (one_triangle_mesh_room 6 ltac:(lia))).
Defined.

Lemma triangulation_decided_by_polygon_area_split_witness :
  let g := Sample.geometry 0.5%float false in
  let g' := with_flipSide (with_elevation g 3%float) true in
  area g = area g' /\ segmentSplit g = segmentSplit g' /\
  polygon_calls Sample.builder Sample.empty_mesh Sample.polygon g Sample.textured =
    polygon_calls Scene.other_builder Scene.other_mesh Sample.polygon g'
      (Sample.appearance None) /\
  final_triangulation Sample.builder Sample.empty_mesh Sample.polygon g Sample.textured =
    final_triangulation Scene.other_builder Scene.other_mesh Sample.polygon g'
      (Sample.appearance None).
Proof.
  cbv zeta. split; [reflexivity|]. split; [reflexivity|].
  exact (triangulation_decided_by_polygon_area_split Sample.builder Scene.other_builder
           Sample.empty_mesh Scene.other_mesh Sample.polygon
           (Sample.geometry 0.5%float false)
           (with_flipSide (with_elevation (Sample.geometry 0.5%float false) 3%float) true)
           Sample.textured (Sample.appearance None) eq_refl eq_refl).
Defined.

Lemma explicit_elevation_ignores_provider_witness :
  (lowest <? elevation (Scene.explicit false))%float = true /\
  bbox Sample.builder = bbox Scene.other_builder /\
  polygon_mesh Sample.builder Sample.one_triangle_mesh Sample.polygon
    (Scene.explicit false) Sample.textured =
  polygon_mesh Scene.other_builder Sample.one_triangle_mesh Sample.polygon
    (Scene.explicit false) Sample.textured.
Proof.
  split; [reflexivity|]. split; [reflexivity|].
  exact (explicit_elevation_ignores_provider Sample.builder Scene.other_builder
           Sample.one_triangle_mesh Sample.polygon (Scene.explicit false)
           Sample.textured eq_refl eq_refl).
Defined.

Lemma planes_and_triangles_ignore_witness :
  let m := Sample.one_triangle_mesh in
  let g := Sample.geometry 0%float true in
  let g' := Scene.explicit true in
  let a := Sample.textured in
  let a' := Sample.appearance None in
  gradient a = gradient a' /\ colorNoiseFreq a = colorNoiseFreq a' /\
  hasBackSide g = hasBackSide g' /\ heightOffset g = heightOffset g' /\
  eleNoiseFreq g = eleNoiseFreq g' /\
  addTriangle m Sample.v0 Sample.v1 Sample.v2 g a =
    addTriangle m Sample.v0 Sample.v1 Sample.v2 g' a' /\
  addPlane_ele m Scene.p1 Scene.p2 5%float 6%float g a =
    addPlane_ele m Scene.p1 Scene.p2 5%float 6%float g' a' /\
  addPlane Sample.builder m Scene.p1 Scene.p2 g a =
    addPlane Sample.builder m Scene.p1 Scene.p2 g' a'.
Proof.
  cbv zeta.
  destruct (planes_and_triangles_ignore Sample.builder Sample.one_triangle_mesh
              (Sample.geometry 0%float true) (Scene.explicit true)
              Sample.textured (Sample.appearance None)
              Scene.p1 Scene.p2 5%float 6%float Sample.v0 Sample.v1 Sample.v2
              eq_refl eq_refl) as (Htri & Hplane).
  destruct (Hplane eq_refl) as (Hplane_ele & Hplane2).
  exact (conj eq_refl (conj eq_refl (conj eq_refl (conj eq_refl (conj eq_refl
           (conj (Htri eq_refl) (conj Hplane_ele (Hplane2 eq_refl)))))))).
Defined.

Lemma addPolygon_point_color_and_uv_witness :
  let g := Sample.geometry 0%float false in
  let io := final_triangulation Sample.builder Sample.one_triangle_mesh Sample.polygon g
              Sample.textured in
  let mesh' := polygon_mesh Sample.builder Sample.one_triangle_mesh Sample.polygon g
                 Sample.textured in
  0 <= 1 < numberofpoints io /\
  isEmpty (textureRegion Sample.textured) = false /\
  nth 4 (colors mesh') 0 = 7 /\
  nth 8 (uvs mesh') 0%float = 1.25%float /\
  nth 9 (uvs mesh') 0%float = 0.25%float.
Proof.
  cbv zeta.
  assert (Hi : 0 <= 1 < numberofpoints
                 (final_triangulation Sample.builder Sample.one_triangle_mesh
                    Sample.polygon (Sample.geometry 0%float false) Sample.textured)).
  { vm_compute. split; [discriminate|reflexivity]. }
  destruct (addPolygon_point_color_and_uv Sample.builder Sample.one_triangle_mesh
              Sample.polygon (Sample.geometry 0%float false) Sample.textured 1 Hi)
    as (Hcolor & Huv).
  exact (conj Hi (conj eq_refl (conj Hcolor (Huv eq_refl)))).
Defined.

Lemma appended_decided_by_vertex_count_witness :
  let m := Sample.one_triangle_mesh in
  let m2 := Scene.other_mesh in
  let g := Sample.geometry 0%float true in
  let a := Sample.textured in
  to_int (vertex_count m) = to_int (vertex_count m2) /\
  appended m (polygon_mesh Sample.builder m Sample.polygon g a) =
    appended m2 (polygon_mesh Sample.builder m2 Sample.polygon g a) /\
  appended m (addPlane Sample.builder m Scene.p1 Scene.p2 g a) =
    appended m2 (addPlane Sample.builder m2 Scene.p1 Scene.p2 g a) /\
  appended m (addPlane_ele m Scene.p1 Scene.p2 5%float 6%float g a) =
    appended m2 (addPlane_ele m2 Scene.p1 Scene.p2 5%float 6%float g a) /\
  appended m (addTriangle m Sample.v0 Sample.v1 Sample.v2 g a) =
    appended m2 (addTriangle m2 Sample.v0 Sample.v1 Sample.v2 g a).
Proof.
  cbv zeta. split; [reflexivity|].
  exact (appended_decided_by_vertex_count Sample.builder Sample.one_triangle_mesh
           Scene.other_mesh Sample.polygon (Sample.geometry 0%float true)
           Sample.textured Scene.p1 Scene.p2 5%float 6%float
           Sample.v0 Sample.v1 Sample.v2 eq_refl).
Defined.

Lemma sample_counts_returned (sw : string) (input : triangulateio) :
  0 <= numberofpoints input <= int_max ->
  counts_returned (Sample.single_triangle sw input).
Proof.
  intros Hpoints. unfold counts_returned, int_max in *.
  cbn [numberofpoints numberoftriangles numberofcorners Sample.single_triangle].
  lia.
Defined.

Lemma vertex_count_grows_witness :
  let m := Sample.one_triangle_mesh in
  let g := Sample.geometry 0%float true in
  let a := Sample.textured in
  let io := final_triangulation Sample.builder m Sample.polygon g a in
  let grown (mesh' : Mesh) (k : Z) :=
    whole_vertices mesh' /\ vertex_count mesh' = vertex_count m + k in
  whole_vertices m /\ counts_returned io /\
  grown (polygon_mesh Sample.builder m Sample.polygon g a) 3 /\
  grown (addPlane Sample.builder m Scene.p1 Scene.p2 g a) 6 /\
  grown (addPlane_ele m Scene.p1 Scene.p2 5%float 6%float g a) 6 /\
  grown (addTriangle m Sample.v0 Sample.v1 Sample.v2 g a) 6.
Proof.
  cbv zeta.
  assert (Hcounts : counts_returned
            (final_triangulation Sample.builder Sample.one_triangle_mesh Sample.polygon
               (Sample.geometry 0%float true) Sample.textured)).
  { apply sample_counts_returned. vm_compute. split; discriminate. }
  destruct (vertex_count_grows Sample.builder Sample.one_triangle_mesh Sample.polygon
              (Sample.geometry 0%float true) Sample.textured Scene.p1 Scene.p2
              5%float 6%float Sample.v0 Sample.v1 Sample.v2 one_triangle_mesh_whole)
    as (Hpoly & Hrest).
  exact (conj one_triangle_mesh_whole (conj Hcounts (conj (Hpoly Hcounts) Hrest))).
Defined.

Lemma fillMesh_appended_sizes_witness :
  let io := Sample.single_triangle "pzBQ" (polygon_input Sample.polygon) in
  let mesh' := fillMesh Sample.builder io Sample.one_triangle_mesh
                 (Sample.geometry 0%float false) Sample.textured in
  counts_returned io /\
  size (vertices mesh') = 9 + 3 * 3 /\ size (colors mesh') = 3 + 3 /\
  size (uvs mesh') = 6 + 2 * 3 /\ size (triangles mesh') = 3 + 3 * 1.
Proof.
  cbv zeta.
  assert (Hcounts : counts_returned
            (Sample.single_triangle "pzBQ" (polygon_input Sample.polygon))).
  { apply sample_counts_returned. vm_compute. split; discriminate. }
  exact (conj Hcounts
           (fillMesh_appended_sizes Sample.builder Sample.one_triangle_mesh
              (Sample.geometry 0%float false) Sample.textured
              (Sample.single_triangle "pzBQ" (polygon_input Sample.polygon)) Hcounts)).
Defined.

(** ** Further properties: flat triangulations *)

Section Flat.

Context `{Collaborators}.
Variable self : MeshBuilderImpl.
Variables (mesh : Mesh) (polygon : Polygon) (g : GeometryOptions) (a : AppearanceOptions).

(** X14: with an explicit elevation and a final triangulation that has no
    point-marker list, [addPolygon] appends every point at the one
    elevation [heightOffset + elevation]: the surface is flat, without
    sampled ground and without noise. *)
Theorem addPolygon_flat_without_markers (i : Z) :
  let io := final_triangulation self mesh polygon g a in
  let mesh' := polygon_mesh self mesh polygon g a in
  (lowest <? elevation g)%float = true -> pointmarkerlist io = None ->
  0 <= i < numberofpoints io ->
  nth (length (vertices mesh) + (3 * Z.to_nat i + 2)) (vertices mesh') 0%float =
    (heightOffset g + elevation g)%float.
Proof.
  intros io mesh' Hexplicit Hmarkers Hi. subst mesh'.
  rewrite addPolygon_fills. fold io. rewrite fillMesh_vertices, app_nth2_plus.
  destruct (nth_flat_map_triple (point_x io) (point_y io) (filled_elevation self io g)
              (zrange (Z.to_nat (numberofpoints io)) 0) (Z.to_nat i) 0%float 0)
    as (_ & _ & He).
  { rewrite zrange_length. lia. }
  rewrite He. unfold filled_elevation, marker, plain_elevation.
  now rewrite Hmarkers, Hexplicit.
Qed.

End Flat.

Lemma addPolygon_flat_without_markers_witness :
  let g := Scene.explicit false in
  let io := final_triangulation Sample.builder Sample.one_triangle_mesh Sample.polygon g
              Sample.textured in
  let mesh' := polygon_mesh Sample.builder Sample.one_triangle_mesh Sample.polygon g
                 Sample.textured in
  (lowest <? elevation g)%float = true /\ pointmarkerlist io = None /\
  0 <= 2 < numberofpoints io /\
  nth 17 (vertices mesh') 0%float = 5%float.
Proof.
  cbv zeta.
  assert (Hi : 0 <= 2 < numberofpoints
                 (final_triangulation Sample.builder Sample.one_triangle_mesh
                    Sample.polygon (Scene.explicit false) Sample.textured)).
  { vm_compute. split; [discriminate|reflexivity]. }
  split; [reflexivity|]. split; [reflexivity|]. split; [exact Hi|].
  exact (addPolygon_flat_without_markers Sample.builder Sample.one_triangle_mesh
           Sample.polygon (Scene.explicit false) Sample.textured 2
           eq_refl eq_refl Hi).
Defined.

(** ** The triangle indices of addPolygon on concrete inputs *)

Lemma sample_corners_name_points (sw : string) (input : triangulateio) :
  3 <= numberofpoints input -> corners_name_points (Sample.single_triangle sw input).
Proof.
  intros Hn i c Hi Hc.
  cbn [numberoftriangles numberofpoints Sample.single_triangle] in Hi |- *.
  assert (i = 0) as -> by lia.
  assert (c = 0 \/ c = 1 \/ c = 2) as [-> | [-> | ->]] by lia;
    vm_compute corner_at; lia.
Defined.

Lemma addPolygon_triangle_indices_witness :
  let m := Sample.one_triangle_mesh in
  let g := Sample.geometry 0%float false in
  let io := final_triangulation Sample.builder m Sample.polygon g Sample.textured in
  counts_returned io /\ room_for m (numberofpoints io) /\ corners_name_points io /\
  triangles (polygon_mesh Sample.builder m Sample.polygon g Sample.textured) =
    [0; 1; 2] ++ [3 + 1; 3 + 0; 3 + 2].
Proof.
  cbv zeta.
  assert (Hcounts : counts_returned
            (final_triangulation Sample.builder Sample.one_triangle_mesh Sample.polygon
               (Sample.geometry 0%float false) Sample.textured)).
  { apply sample_counts_returned. vm_compute. split; discriminate. }
  assert (Hroom : room_for Sample.one_triangle_mesh
            (numberofpoints
               (final_triangulation Sample.builder Sample.one_triangle_mesh Sample.polygon
                  (Sample.geometry 0%float false) Sample.textured))).
  { apply one_triangle_mesh_room. vm_compute. discriminate. }
  assert (Hcorners : corners_name_points
            (final_triangulation Sample.builder Sample.one_triangle_mesh Sample.polygon
               (Sample.geometry 0%float false) Sample.textured)).
  { apply sample_corners_name_points. vm_compute. discriminate. }
  exact (conj Hcounts (conj Hroom (conj Hcorners
           (addPolygon_triangle_indices Sample.builder Sample.one_triangle_mesh
              Sample.polygon (Sample.geometry 0%float false) Sample.textured
              Hcounts Hroom Hcorners)))).
Defined.

(** On a mesh without triangles, and with [flipSide] unset, the first
    index [addPolygon] appends is the [int] sum of the start index and
    corner 1 of triangle 0. *)
Lemma addPolygon_first_index `{Collaborators} (self : MeshBuilderImpl) (mesh : Mesh)
    (polygon : Polygon) (g : GeometryOptions) (a : AppearanceOptions) :
  triangles mesh = [] -> flipSide g = false ->
  (0 < Z.to_nat (to_size_t (numberoftriangles
                              (final_triangulation self mesh polygon g a))))%nat ->
  nth_error (triangles (polygon_mesh self mesh polygon g a)) 0 =
  Some (int_add (to_int (vertex_count mesh))
                (corner (final_triangulation self mesh polygon g a) 0 1)).
Proof.
  intros Hempty Hflip Hrounds.
  rewrite addPolygon_fills, fillMesh_triangles, Hempty, Hflip.
  destruct (Z.to_nat (to_size_t (numberoftriangles
                                   (final_triangulation self mesh polygon g a))));
    [lia|reflexivity].
Qed.

(** C4, as the specification words it, fails on a mesh whose vertex count
    no longer is an [int]: on the mesh of 2^31 vertices the first index
    [addPolygon] appends is -2147483647, the wrapped start index -2^31
    plus corner 1, and not the vertex count 2^31 plus that corner. *)
Lemma addPolygon_offset_wraps_beyond_int :
  let g := Sample.geometry 0%float false in
  let io := final_triangulation Sample.builder Sample.huge_mesh Sample.polygon g
              Sample.textured in
  let mesh' := polygon_mesh Sample.builder Sample.huge_mesh Sample.polygon g
                 Sample.textured in
  vertex_count Sample.huge_mesh = 2147483648 /\
  corner io 0 1 = 1 /\
  nth_error (triangles mesh') 0 = Some (-2147483647) /\
  nth_error (triangles mesh') 0 <> Some (vertex_count Sample.huge_mesh + corner io 0 1).
Proof.
  cbv zeta.
  assert (Hio : final_triangulation Sample.builder Sample.huge_mesh Sample.polygon
                  (Sample.geometry 0%float false) Sample.textured =
                final_triangulation Sample.builder Sample.empty_mesh Sample.polygon
                  (Sample.geometry 0%float false) Sample.textured).
  { now apply final_triangulation_decided. }
  assert (Hcorner : corner (final_triangulation Sample.builder Sample.huge_mesh
                              Sample.polygon (Sample.geometry 0%float false)
                              Sample.textured) 0 1 = 1).
  { rewrite Hio. reflexivity. }
  assert (Hrounds : (0 < Z.to_nat (to_size_t (numberoftriangles
                        (final_triangulation Sample.builder Sample.huge_mesh
                           Sample.polygon (Sample.geometry 0%float false)
                           Sample.textured))))%nat).
  { rewrite Hio. vm_compute. constructor. }
  pose proof (addPolygon_first_index Sample.builder Sample.huge_mesh Sample.polygon
                (Sample.geometry 0%float false) Sample.textured
                eq_refl eq_refl Hrounds) as Hfirst.
  rewrite Hcorner, huge_mesh_vertex_count in Hfirst.
  change (int_add (to_int 2147483648) 1) with (-2147483647) in Hfirst.
  split; [exact huge_mesh_vertex_count|]. split; [exact Hcorner|].
  split; [exact Hfirst|].
  rewrite Hfirst, Hcorner, huge_mesh_vertex_count.
  intros Heq. assert (Hz : -2147483647 = 2147483648 + 1) by congruence. lia.
Qed.
